(** * daystats: the fetch-and-filter pipeline of [daystats.py]

    A shallow embedding of the date window builder, the two GraphQL
    fetchers and the orchestrator of [src/daystats/daystats.py], followed by
    the properties of the specification that were checked against it.

    Conventions of the embedding
    - Python [int] is [Z]; [str] is [string] (login names, cursors and
      timestamps on the wire are ASCII).
    - A naive [datetime.datetime] is a record of its seven fields; its
      constructor, [replace], [toordinal], [fromordinal], [+ timedelta],
      comparison and [isoformat] follow CPython's [_pydatetime.py], and
      [replace] also the conversion of its arguments to C [int]s that the
      C implementation performs first.
    - An exception is a value [Raise e]; a [while] loop takes fuel and
      answers [OutOfFuel] when the fuel does not suffice.
    - The HTTP client is a function on an abstract world: [post q w] gives
      the decoded response and the next world. A response is one without
      ["data"] or one with the payload of a query; a transport that raises
      and a payload with a null object are not represented, so nothing
      below says that a fetch cannot raise. *)

From Stdlib Require Import ZArith Lia Bool Ascii String List DecimalString.
From stdpp Require Import base gmap strings list.

Local Open Scope string_scope.
Local Open Scope Z_scope.

(* ===================================================================== *)
(** ** Exceptions and results *)
(* ===================================================================== *)

Inductive exn : Type :=
| ValueError
| OverflowError
| KeyError.

Inductive result (A : Type) : Type :=
| Ok (a : A)
| Raise (e : exn)
| OutOfFuel.

Arguments Ok {A} a.
Arguments Raise {A} e.
Arguments OutOfFuel {A}.

Definition rbind {A B : Type} (r : result A) (k : A -> result B) : result B :=
  match r with
  | Ok a => k a
  | Raise e => Raise e
  | OutOfFuel => OutOfFuel
  end.

Declare Scope result_scope.
Delimit Scope result_scope with result.
Notation "'let?' x ':=' r 'in' k" := (rbind r (fun x => k))
  (at level 10, x pattern, r at level 100, k at level 200) : result_scope.
Local Open Scope result_scope.

(* ===================================================================== *)
(** ** [datetime]: the fields, the constructor's checks, [replace] *)
(* ===================================================================== *)

Record datetime : Type := mkdatetime {
  dt_year : Z;
  dt_month : Z;
  dt_day : Z;
  dt_hour : Z;
  dt_minute : Z;
  dt_second : Z;
  dt_microsecond : Z
}.

Definition MINYEAR : Z := 1.
Definition MAXYEAR : Z := 9999.
Definition _MAXORDINAL : Z := 3652059.

(** [_DAYS_IN_MONTH = [-1, 31, 28, 31, 30, 31, 30, 31, 31, 30, 31, 30, 31]] *)
Definition _DAYS_IN_MONTH (month : Z) : Z :=
  match month with
  | 1 => 31 | 2 => 28 | 3 => 31 | 4 => 30 | 5 => 31 | 6 => 30
  | 7 => 31 | 8 => 31 | 9 => 30 | 10 => 31 | 11 => 30 | 12 => 31
  | _ => -1
  end.

(** Running sums of [_DAYS_IN_MONTH]: days before the first of the month. *)
Definition _DAYS_BEFORE_MONTH (month : Z) : Z :=
  match month with
  | 1 => 0 | 2 => 31 | 3 => 59 | 4 => 90 | 5 => 120 | 6 => 151
  | 7 => 181 | 8 => 212 | 9 => 243 | 10 => 273 | 11 => 304 | 12 => 334
  | _ => -1
  end.

Definition _is_leap (year : Z) : bool :=
  (year mod 4 =? 0) && (negb (year mod 100 =? 0) || (year mod 400 =? 0)).

Definition _days_before_year (year : Z) : Z :=
  let y := year - 1 in
  y * 365 + y / 4 - y / 100 + y / 400.

Definition _days_in_month (year month : Z) : Z :=
  if (month =? 2) && _is_leap year then 29 else _DAYS_IN_MONTH month.

Definition _days_before_month (year month : Z) : Z :=
  _DAYS_BEFORE_MONTH month + (if (2 <? month) && _is_leap year then 1 else 0).

Definition _ymd2ord (year month day : Z) : Z :=
  _days_before_year year + _days_before_month year month + day.

Definition _DI400Y : Z := _days_before_year 401.
Definition _DI100Y : Z := _days_before_year 101.
Definition _DI4Y : Z := _days_before_year 5.

Definition _ord2ymd (n : Z) : Z * Z * Z :=
  let n := n - 1 in
  let n400 := n / _DI400Y in
  let n := n mod _DI400Y in
  let year := n400 * 400 + 1 in
  let n100 := n / _DI100Y in
  let n := n mod _DI100Y in
  let n4 := n / _DI4Y in
  let n := n mod _DI4Y in
  let n1 := n / 365 in
  let n := n mod 365 in
  let year := year + (n100 * 100 + n4 * 4 + n1) in
  if (n1 =? 4) || (n100 =? 4) then (year - 1, 12, 31)
  else
    let leapyear := (n1 =? 3) && (negb (n4 =? 24) || (n100 =? 3)) in
    let month := Z.shiftr (n + 50) 5 in
    let preceding :=
      _DAYS_BEFORE_MONTH month + (if (2 <? month) && leapyear then 1 else 0) in
    if n <? preceding then
      let month := month - 1 in
      let preceding :=
        preceding
        - (_DAYS_IN_MONTH month
           + (if (month =? 2) && leapyear then 1 else 0)) in
      (year, month, n - preceding + 1)
    else (year, month, n - preceding + 1).

(** [_check_date_fields]: the year within [MINYEAR..MAXYEAR], the month
    within [1..12], the day within the month's length. *)
Definition valid_date (year month day : Z) : bool :=
  (MINYEAR <=? year) && (year <=? MAXYEAR)
  && (1 <=? month) && (month <=? 12)
  && (1 <=? day) && (day <=? _days_in_month year month).

(** [_check_time_fields] *)
Definition valid_time (hour minute second microsecond : Z) : bool :=
  (0 <=? hour) && (hour <=? 23)
  && (0 <=? minute) && (minute <=? 59)
  && (0 <=? second) && (second <=? 59)
  && (0 <=? microsecond) && (microsecond <=? 999999).

Definition valid_datetime (d : datetime) : bool :=
  valid_date (dt_year d) (dt_month d) (dt_day d)
  && valid_time (dt_hour d) (dt_minute d) (dt_second d) (dt_microsecond d).

(** [datetime(year, month, day, hour, minute, second, microsecond)]: the
    constructor raises [ValueError] when a field is out of range. *)
Definition datetime_new (year month day hour minute second microsecond : Z)
  : result datetime :=
  if valid_date year month day && valid_time hour minute second microsecond
  then Ok (mkdatetime year month day hour minute second microsecond)
  else Raise ValueError.

(** The bounds of a C [int]. [datetime.replace] converts its integer
    arguments to C [int]s before it looks at them, and the conversion raises
    [OverflowError] for a value outside these bounds. *)
Definition INT_MIN : Z := -2147483648.
Definition INT_MAX : Z := 2147483647.

Definition fits_c_int (v : Z) : bool := (INT_MIN <=? v) && (v <=? INT_MAX).

(** An argument left at [None] is not converted. *)
Definition arg_fits (arg : option Z) : bool :=
  match arg with
  | Some v => fits_c_int v
  | None => true
  end.

(** [self.replace(year=None, month=None, ...)]: every argument that is given
    must fit a C [int], else [OverflowError]; a field given as [None] keeps
    the value of [self]; the result goes through the constructor, which
    raises [ValueError] for a field out of range. *)
Definition replace (self : datetime)
    (year month day hour minute second microsecond : option Z)
  : result datetime :=
  if arg_fits year && arg_fits month && arg_fits day && arg_fits hour
     && arg_fits minute && arg_fits second && arg_fits microsecond
  then
    datetime_new
      (default (dt_year self) year)
      (default (dt_month self) month)
      (default (dt_day self) day)
      (default (dt_hour self) hour)
      (default (dt_minute self) minute)
      (default (dt_second self) second)
      (default (dt_microsecond self) microsecond)
  else Raise OverflowError.

(** Comparison of naive datetimes: the tuples of fields, lexicographically. *)
Fixpoint cmp_fields (a b : list Z) : comparison :=
  match a, b with
  | x :: a', y :: b' =>
      match x ?= y with
      | Eq => cmp_fields a' b'
      | c => c
      end
  | [], [] => Eq
  | [], _ :: _ => Lt
  | _ :: _, [] => Gt
  end.

Definition dt_fields (d : datetime) : list Z :=
  [dt_year d; dt_month d; dt_day d; dt_hour d; dt_minute d; dt_second d;
   dt_microsecond d].

Definition dt_cmp (a b : datetime) : comparison :=
  cmp_fields (dt_fields a) (dt_fields b).

(** [a > b] *)
Definition dt_gt (a b : datetime) : bool :=
  match dt_cmp a b with Gt => true | _ => false end.

(* ===================================================================== *)
(** ** [timedelta] and [datetime + timedelta] *)
(* ===================================================================== *)

(** A normalised [timedelta]: [0 <= seconds < 86400] and
    [0 <= microseconds < 1000000]. *)
Record timedelta : Type := mktimedelta {
  td_days : Z;
  td_seconds : Z;
  td_microseconds : Z
}.

Definition td_normalize (d s us : Z) : timedelta :=
  let s := s + us / 1000000 in
  let us := us mod 1000000 in
  let d := d + s / 86400 in
  let s := s mod 86400 in
  mktimedelta d s us.

(** [timedelta(hours=h)] *)
Definition timedelta_hours (h : Z) : timedelta := td_normalize 0 (h * 3600) 0.

(** [timedelta(seconds=s)] *)
Definition timedelta_seconds (s : Z) : timedelta := td_normalize 0 s 0.

Definition timedelta_add (a b : timedelta) : timedelta :=
  td_normalize (td_days a + td_days b) (td_seconds a + td_seconds b)
    (td_microseconds a + td_microseconds b).

Definition toordinal (d : datetime) : Z :=
  _ymd2ord (dt_year d) (dt_month d) (dt_day d).

(** [datetime.__add__]: through the ordinal of the date and the time of day as
    a [timedelta]; a result outside [1.._MAXORDINAL] raises [OverflowError]. *)
Definition datetime_add (self : datetime) (other : timedelta)
  : result datetime :=
  let delta :=
    timedelta_add
      (td_normalize (toordinal self)
         (dt_hour self * 3600 + dt_minute self * 60 + dt_second self)
         (dt_microsecond self))
      other in
  let hour := td_seconds delta / 3600 in
  let rem := td_seconds delta mod 3600 in
  let minute := rem / 60 in
  let second := rem mod 60 in
  if (0 <? td_days delta) && (td_days delta <=? _MAXORDINAL) then
    let '(y, m, d) := _ord2ymd (td_days delta) in
    Ok (mkdatetime y m d hour minute second (td_microseconds delta))
  else Raise OverflowError.

(* ===================================================================== *)
(** ** Strings: [isoformat], [lower], [rstrip("Z")] *)
(* ===================================================================== *)

Definition digit_char (d : Z) : ascii :=
  ascii_of_nat (48 + Z.to_nat (d mod 10)).

(** The [width] low decimal digits of [n], most significant first:
    ["%0<width>d" % n] for [0 <= n < 10 ^ width]. *)
Fixpoint zfill (width : nat) (n : Z) : string :=
  match width with
  | O => ""
  | S w => zfill w (n / 10) +:+ String (digit_char n) ""
  end.

(** [datetime.isoformat()] with the default separator ["T"]; the fraction is
    printed only when the microsecond is not 0. *)
Definition isoformat (d : datetime) : string :=
  zfill 4 (dt_year d) +:+ "-" +:+ zfill 2 (dt_month d) +:+ "-"
  +:+ zfill 2 (dt_day d) +:+ "T" +:+ zfill 2 (dt_hour d) +:+ ":"
  +:+ zfill 2 (dt_minute d) +:+ ":" +:+ zfill 2 (dt_second d)
  +:+ (if dt_microsecond d =? 0 then ""
       else "." +:+ zfill 6 (dt_microsecond d)).

Definition lower_char (c : ascii) : ascii :=
  let n := nat_of_ascii c in
  if (65 <=? n)%nat && (n <=? 90)%nat then ascii_of_nat (n + 32) else c.

(** [str.lower()] *)
Fixpoint lower (s : string) : string :=
  match s with
  | EmptyString => EmptyString
  | String c s' => String (lower_char c) (lower s')
  end.

(** [s.rstrip("Z")]: every trailing ["Z"] is removed. *)
Fixpoint rstrip_Z (s : string) : string :=
  match s with
  | EmptyString => EmptyString
  | String c s' =>
      match rstrip_Z s' with
      | EmptyString =>
          if Ascii.eqb c "Z" then EmptyString else String c EmptyString
      | r => String c r
      end
  end.

(* ===================================================================== *)
(** ** Window Builder: [_build_bookend_times] *)
(* ===================================================================== *)

(** Python truthiness of an [int | None]: [None] and [0] are false. *)
Definition truthy (o : option Z) : bool :=
  match o with
  | Some z => negb (z =? 0)
  | None => false
  end.

(** [now] is the reading of [datetime.datetime.now()]. *)
Definition _build_bookend_times (now : datetime) (year month day : option Z)
  : result (datetime * datetime) :=
  let? now :=
    (if truthy year then replace now year None None None None None None
     else Ok now) in
  let? now :=
    (if truthy month then replace now None month None None None None None
     else Ok now) in
  let? now :=
    (if truthy day then replace now None None day None None None None
     else Ok now) in
  let? start_dt :=
    replace now None None None (Some 0) (Some 0) (Some 0) (Some 0) in
  let? end_dt :=
    replace now None None None (Some 23) (Some 59) (Some 59) (Some 0) in
  Ok (start_dt, end_dt).

(* ===================================================================== *)
(** ** Data model: [Repo], [Contributions], [PullRequest] *)
(* ===================================================================== *)

Record Repo : Type := mkRepo {
  owner : string;
  name : string
}.

#[global] Instance Repo_eq_dec : EqDecision Repo.
Proof. solve_decision. Defined.

#[global] Instance Repo_countable : Countable Repo :=
  inj_countable' (fun r => (owner r, name r)) (fun p => mkRepo p.1 p.2)
    (fun r => match r with mkRepo _ _ => eq_refl end).

Record Contributions : Type := mkContributions {
  commits : Z;
  issues : Z;
  pullrequests : Z;
  reviews : Z;
  pr_repos : gset Repo
}.

Record PullRequest : Type := mkPullRequest {
  reponame : string;
  additions : Z;
  deletions : Z;
  files : Z;
  created_at : string;
  number : Z;
  url : string
}.

(* ===================================================================== *)
(** ** The wire: queries and decoded responses *)
(* ===================================================================== *)

(** The two query documents with their [variables]. *)
Inductive Query : Type :=
| ContribQuery (loginname from_time to_time : string)
| PullRequestQuery (repoowner reponame : string) (cursor : option string).

Definition _create_contrib_query (loginname from_ to_ : string) : Query :=
  ContribQuery loginname from_ to_.

Definition _create_pull_request_query (repoowner reponame : string)
    (cursor : option string) : Query :=
  PullRequestQuery repoowner reponame cursor.

(** One entry of [pullRequestContributionsByRepository]. *)
Record RepoJson : Type := mkRepoJson {
  repository_owner_login : string;
  repository_name : string
}.

(** [resp_json["data"]["user"]["contributionsCollection"]] *)
Record ContribsJson : Type := mkContribsJson {
  totalCommitContributions : Z;
  totalIssueContributions : Z;
  totalPullRequestContributions : Z;
  totalPullRequestReviewContributions : Z;
  pullRequestContributionsByRepository : list RepoJson
}.

(** One entry of [nodes]. *)
Record Node : Type := mkNode {
  node_author_login : string;
  node_createdAt : string;
  node_additions : Z;
  node_deletions : Z;
  node_changedFiles : Z;
  node_url : string;
  node_number : Z
}.

(** [resp_json["data"]["repository"]["pullRequests"]] with its [pageInfo]. *)
Record PullsJson : Type := mkPullsJson {
  endCursor : option string;
  hasNextPage : bool;
  nodes : list Node
}.

(** A decoded response: a dictionary without the key ["data"] (the transport's
    [{"error": ...}] or an API error payload), or one of the two payloads under
    ["data"]. Indexing a payload of the other shape is a [KeyError]. *)
Inductive Response : Type :=
| ErrorResponse (error : string)
| ContribResponse (data : ContribsJson)
| PullsResponse (data : PullsJson).

(** ["data" in resp_json] *)
Definition has_data (resp_json : Response) : bool :=
  match resp_json with
  | ErrorResponse _ => false
  | _ => true
  end.

(* ===================================================================== *)
(** ** The pipeline over an abstract client *)
(* ===================================================================== *)

Declare Scope client_scope.
Delimit Scope client_scope with client.

Section Pipeline.

(** The state of everything behind the client: the server, the network. *)
Context {World : Type}.

(** [client.post]: the decoded response to a query, and the next world. *)
Variable post : Query -> World -> Response * World.

(** [datetime.datetime.fromisoformat]; [None] stands for its [ValueError]. *)
Variable fromisoformat : string -> option datetime.

(** The order in which a [for] loop visits a [set]. *)
Variable set_iter : gset Repo -> list Repo.

(** [time.altzone], [time.timezone], [time.daylight] of the machine. *)
Variables (altzone timezone daylight : Z).

Definition OFFSET : Z := if negb (daylight =? 0) then altzone else timezone.
Definition UTC_OFFSET : timedelta := timedelta_hours (OFFSET / 60 / 60).

(** Computations that talk to the client and may raise. *)
Definition M (A : Type) : Type := World -> result A * World.

Definition mret {A : Type} (a : A) : M A := fun w => (Ok a, w).

Definition mbind {A B : Type} (m : M A) (k : A -> M B) : M B :=
  fun w =>
    match m w with
    | (Ok a, w') => k a w'
    | (Raise e, w') => (Raise e, w')
    | (OutOfFuel, w') => (OutOfFuel, w')
    end.

Definition lift {A : Type} (r : result A) : M A := fun w => (r, w).

Definition client_post (query : Query) : M Response :=
  fun w => let '(resp_json, w') := post query w in (Ok resp_json, w').

Notation "'let*' x ':=' m 'in' k" := (mbind m (fun x => k))
  (at level 10, x pattern, m at level 100, k at level 200) : client_scope.
Local Open Scope client_scope.

(** *** Contribution Fetcher *)

(** The body of [for pr in contribs[...]: pr_repos.add(Repo(...))]. *)
Definition add_repo (pr_repos : gset Repo) (pr : RepoJson) : gset Repo :=
  pr_repos ∪ {[ mkRepo (repository_owner_login pr) (repository_name pr) ]}.

Definition _fetch_contributions (loginname : string)
    (start_dt end_dt : datetime) : M Contributions :=
  let from_ := isoformat start_dt +:+ "Z" in
  let to_ := isoformat end_dt +:+ "Z" in
  let query := _create_contrib_query loginname from_ to_ in
  let* resp_json := client_post query in
  match resp_json with
  | ErrorResponse _ => mret (mkContributions 0 0 0 0 ∅)
  | ContribResponse contribs =>
      let pr_repos :=
        fold_left add_repo (pullRequestContributionsByRepository contribs) ∅ in
      mret (mkContributions
              (totalCommitContributions contribs)
              (totalIssueContributions contribs)
              (totalPullRequestContributions contribs)
              (totalPullRequestReviewContributions contribs)
              pr_repos)
  | PullsResponse _ => lift (Raise KeyError)
  end.

(** *** Pull Request Fetcher *)

(** One turn of [for node in rjson["nodes"]] on the loop's variables
    [more] and [prs]. *)
Definition process_node (author reponame : string)
    (start_dt end_dt : datetime) (node : Node)
    (more : bool) (prs : list PullRequest)
  : result (bool * list PullRequest) :=
  match fromisoformat (rstrip_Z (node_createdAt node)) with
  | None => Raise ValueError
  | Some created_at =>
      if negb (String.eqb (lower (node_author_login node)) (lower author))
      then Ok (more, prs)
      else if negb (dt_gt end_dt created_at && dt_gt created_at start_dt)
      then Ok (dt_gt created_at start_dt, prs)
      else
        Ok (more,
            (prs ++ [mkPullRequest reponame (node_additions node)
                       (node_deletions node) (node_changedFiles node)
                       (node_createdAt node) (node_number node)
                       (node_url node)])%list)
  end.

Fixpoint process_nodes (author reponame : string)
    (start_dt end_dt : datetime) (nodes : list Node)
    (more : bool) (prs : list PullRequest)
  : result (bool * list PullRequest) :=
  match nodes with
  | [] => Ok (more, prs)
  | node :: nodes' =>
      let? (more, prs) :=
        process_node author reponame start_dt end_dt node more prs in
      process_nodes author reponame start_dt end_dt nodes' more prs
  end.

(** [while more: ...], entered with [more = True]; every unit of fuel pays
    for one page. *)
Fixpoint fetch_pages (fuel : nat) (author repoowner reponame : string)
    (start_dt end_dt : datetime) (cursor : option string)
    (prs : list PullRequest) : M (list PullRequest) :=
  match fuel with
  | O => lift OutOfFuel
  | S fuel' =>
      let query := _create_pull_request_query repoowner reponame cursor in
      let* resp_json := client_post query in
      match resp_json with
      | ErrorResponse _ => mret []
      | ContribResponse _ => lift (Raise KeyError)
      | PullsResponse rjson =>
          let cursor := endCursor rjson in
          let more := hasNextPage rjson in
          let* (more, prs) :=
            lift (process_nodes author reponame start_dt end_dt
                    (nodes rjson) more prs) in
          if more
          then fetch_pages fuel' author repoowner reponame start_dt end_dt
                 cursor prs
          else mret prs
      end
  end.

Definition _fetch_pull_requests (fuel : nat)
    (author repoowner reponame : string) (start_dt end_dt : datetime)
  : M (list PullRequest) :=
  fetch_pages fuel author repoowner reponame start_dt end_dt None [].

(** *** Orchestrator *)

(** [for repo in contribs.pr_repos: pull_requests.extend(...)]; the two
    shifted bounds are computed at every turn, start first. *)
Fixpoint fetch_repos (fuel : nat) (loginname : string)
    (start_dt end_dt : datetime) (repos : list Repo)
    (pull_requests : list PullRequest) : M (list PullRequest) :=
  match repos with
  | [] => mret pull_requests
  | repo :: repos' =>
      let* start_utc := lift (datetime_add start_dt UTC_OFFSET) in
      let* end_utc := lift (datetime_add end_dt UTC_OFFSET) in
      let* prs :=
        _fetch_pull_requests fuel loginname (owner repo) (name repo)
          start_utc end_utc in
      fetch_repos fuel loginname start_dt end_dt repos'
        (pull_requests ++ prs)%list
  end.

(** [token] and [url] only configure the client, which is [post] here;
    [now] is the clock reading taken by [_build_bookend_times]. *)
Definition get_stats (fuel : nat) (now : datetime) (loginname : string)
    (year month day : option Z) : M (Contributions * list PullRequest) :=
  let* (start_dt, end_dt) :=
    lift (_build_bookend_times now year month day) in
  let* contribs := _fetch_contributions loginname start_dt end_dt in
  let* pull_requests :=
    fetch_repos fuel loginname start_dt end_dt
      (set_iter (pr_repos contribs)) [] in
  mret (contribs, pull_requests).

End Pipeline.

(* ===================================================================== *)
(** ** Loop states of the paging loop *)
(* ===================================================================== *)

Section PagingStates.

Context {World : Type}.
Variable post : Query -> World -> Response * World.
Variable fromisoformat : string -> option datetime.
Variables (author repoowner reponame : string) (start_dt end_dt : datetime).

(** The variables alive at the head of [while more]: the world, [cursor]
    and [prs]. *)
Definition loop_state : Type := World * option string * list PullRequest.

(** One full turn of the [while] body that ends with [more] true: the page
    has its ["data"], every node is processed, and the loop goes round. *)
Inductive page_step : loop_state -> loop_state -> Prop :=
| page_step_more (w w' : World) (cursor : option string)
    (prs prs' : list PullRequest) (rjson : PullsJson) :
    post (_create_pull_request_query repoowner reponame cursor) w
    = (PullsResponse rjson, w') ->
    process_nodes fromisoformat author reponame start_dt end_dt
      (nodes rjson) (hasNextPage rjson) prs = Ok (true, prs') ->
    page_step (w, cursor, prs) (w', endCursor rjson, prs').

(** The record in the output comes from a timestamp strictly inside the
    window. *)
Definition in_window (pr : PullRequest) : Prop :=
  exists t : datetime,
    fromisoformat (rstrip_Z (created_at pr)) = Some t
    /\ dt_gt t start_dt = true /\ dt_gt end_dt t = true
    /\ t <> start_dt /\ t <> end_dt.

End PagingStates.

(* ===================================================================== *)
(** ** A scripted client and a reader of the wire's timestamps *)
(* ===================================================================== *)

(** The responses still to be served, and the queries received so far. *)
Definition Script : Type := list Response * list Query.

(** Serves the script in order and records every query; an exhausted script
    answers with an error payload. *)
Definition scripted_post (query : Query) (w : Script) : Response * Script :=
  match w.1 with
  | [] => (ErrorResponse "script exhausted", ([], (w.2 ++ [query])%list))
  | resp_json :: rest => (resp_json, (rest, (w.2 ++ [query])%list))
  end.

Definition digit_of (c : ascii) : option Z :=
  let n := nat_of_ascii c in
  if (48 <=? n)%nat && (n <=? 57)%nat then Some (Z.of_nat (n - 48)) else None.

Fixpoint read_digits (n : nat) (acc : Z) (s : string) : option (Z * string) :=
  match n, s with
  | O, _ => Some (acc, s)
  | S n', String c s' =>
      match digit_of c with
      | Some d => read_digits n' (acc * 10 + d) s'
      | None => None
      end
  | S _, EmptyString => None
  end.

Definition read_char (c : ascii) (s : string) : option string :=
  match s with
  | String c' s' => if Ascii.eqb c c' then Some s' else None
  | EmptyString => None
  end.

(** [fromisoformat] on the form the API sends once the ["Z"] is stripped:
    [YYYY-MM-DDTHH:MM:SS]. *)
Definition fromisoformat_seconds (s : string) : option datetime :=
  '(y, s) ← read_digits 4 0 s;
  s ← read_char "-" s;
  '(m, s) ← read_digits 2 0 s;
  s ← read_char "-" s;
  '(d, s) ← read_digits 2 0 s;
  s ← read_char "T" s;
  '(hh, s) ← read_digits 2 0 s;
  s ← read_char ":" s;
  '(mm, s) ← read_digits 2 0 s;
  s ← read_char ":" s;
  '(ss, s) ← read_digits 2 0 s;
  match s, datetime_new y m d hh mm ss 0 with
  | EmptyString, Ok t => Some t
  | _, _ => None
  end.

(** The order in which stdpp lists a finite set. *)
Definition elements_order (s : gset Repo) : list Repo := elements s.

(* ===================================================================== *)
(** ** What a page tells the loop, and the orchestrator's sequence of fetches *)
(* ===================================================================== *)

Section Signals.

Variable fromisoformat : string -> option datetime.
Variables (author : string) (start_dt end_dt : datetime).

(** The value a node assigns to [more], when it assigns one: the node is by
    the author and its timestamp is not strictly inside the window. *)
Definition node_signal (node : Node) : option bool :=
  match fromisoformat (rstrip_Z (node_createdAt node)) with
  | Some created_at =>
      if String.eqb (lower (node_author_login node)) (lower author)
      then
        if dt_gt end_dt created_at && dt_gt created_at start_dt then None
        else Some (dt_gt created_at start_dt)
      else None
  | None => None
  end.

(** The last assignment to [more] made while going through a page. *)
Fixpoint last_signal (nodes : list Node) : option bool :=
  match nodes with
  | [] => None
  | node :: nodes' =>
      match last_signal nodes' with
      | Some b => Some b
      | None => node_signal node
      end
  end.

End Signals.

Section Orchestration.

Context {World : Type}.
Variable post : Query -> World -> Response * World.
Variable fromisoformat : string -> option datetime.
Variables (fuel : nat) (loginname : string) (start_utc end_utc : datetime).

(** The repositories fetched one after the other with one window, each from
    the world the fetch before it left behind. *)
Inductive fetch_each :
  list Repo -> World -> list (list PullRequest) -> World -> Prop :=
| fetch_each_nil (w : World) : fetch_each [] w [] w
| fetch_each_cons (repo : Repo) (repos : list Repo) (w w' w'' : World)
    (prs : list PullRequest) (rest : list (list PullRequest)) :
    _fetch_pull_requests post fromisoformat fuel loginname
      (owner repo) (name repo) start_utc end_utc w = (Ok prs, w') ->
    fetch_each repos w' rest w'' ->
    fetch_each (repo :: repos) w (prs :: rest) w''.

End Orchestration.

(* ===================================================================== *)
(** ** Sample data: the day 2023-09-01 of the repository's fixtures *)
(* ===================================================================== *)

Definition day_start : datetime := mkdatetime 2023 9 1 0 0 0 0.
Definition day_end : datetime := mkdatetime 2023 9 1 23 59 59 0.

Definition sample_node (login createdAt : string) (number : Z) : Node :=
  mkNode login createdAt 47 286 10 "https://github.com/Preocts/daystats/pull"
    number.

Definition sample_record (createdAt : string) (number : Z) : PullRequest :=
  mkPullRequest "daystats" 47 286 10 createdAt number
    "https://github.com/Preocts/daystats/pull".

(** A first page with one pull request of the day, and more pages behind. *)
Definition page_of_the_day : PullsJson :=
  mkPullsJson (Some "Y3Vyc29yOjE=") true
    [sample_node "Preocts" "2023-09-01T04:51:04Z" 5].

(** The only page of a small repository whose latest pull request by the
    author is from the day after. *)
Definition page_day_after : PullsJson :=
  mkPullsJson (Some "Y3Vyc29yOjI=") false
    [sample_node "Preocts" "2023-09-02T10:00:00Z" 6].

(** What the API answers past the last pull request. *)
Definition page_empty : PullsJson := mkPullsJson None false [].

(** Pull requests on the two bounds of the day and one between them, newest
    first. *)
Definition page_bounds : PullsJson :=
  mkPullsJson (Some "Y3Vyc29yOjM=") false
    [sample_node "Preocts" "2023-09-01T23:59:59Z" 9;
     sample_node "Preocts" "2023-09-01T04:51:04Z" 8;
     sample_node "Preocts" "2023-09-01T00:00:00Z" 7].

(** The only page of a repository whose single pull request by the author
    was opened at 18:15 UTC on 31 August, 23:45 that day in a zone five and
    a half hours east of Greenwich. *)
Definition page_evening_before : PullsJson :=
  mkPullsJson (Some "Y3Vyc29yOjQ=") false
    [sample_node "Preocts" "2023-08-31T18:15:00Z" 11].

Definition contribs_once : ContribsJson :=
  mkContribsJson 5 1 2 0 [mkRepoJson "Preocts" "daystats"].


(** The field the Window Builder ends up with: the argument when it is
    truthy, today's value otherwise. *)
Definition override (o : option Z) (today : Z) : Z :=
  if truthy o then default today o else today.

(** The field is given, truthy, and too large or too small for a C [int]:
    its [replace] raises [OverflowError]. *)
Definition overflows (o : option Z) : bool := truthy o && negb (arg_fits o).

(* ===================================================================== *)
(** ** What a page contributes: the nodes the filter lets through *)
(* ===================================================================== *)

Section Selection.

Variable fromisoformat : string -> option datetime.
Variables (author reponame : string) (start_dt end_dt : datetime).

(** The node passes both tests of the [for] body: it is by the author and its
    timestamp is strictly inside the window. *)
Definition selected (node : Node) : bool :=
  match fromisoformat (rstrip_Z (node_createdAt node)) with
  | Some created_at =>
      String.eqb (lower (node_author_login node)) (lower author)
      && (dt_gt end_dt created_at && dt_gt created_at start_dt)
  | None => false
  end.

(** The [PullRequest(...)] appended for a node. *)
Definition record_of (node : Node) : PullRequest :=
  mkPullRequest reponame (node_additions node) (node_deletions node)
    (node_changedFiles node) (node_createdAt node) (node_number node)
    (node_url node).

End Selection.

(** The cursor a response leaves in [cursor]; only a page of pull requests
    has one. *)
Definition cursor_of (resp_json : Response) : option string :=
  match resp_json with
  | PullsResponse rjson => endCursor rjson
  | _ => None
  end.

(* ===================================================================== *)
(** ** [_HTTPClient.__init__]: the token and the cleaned URL *)
(* ===================================================================== *)

Record _HTTPClient : Type := mk_HTTPClient {
  _token : string;
  _host : string;
  _path : string
}.

(** [s.replace(old, "")] for a non-empty [old]: the occurrences of [old] are
    found from the left without overlap; [skip] counts the characters of an
    occurrence still to be dropped. *)
Fixpoint remove_from (old : string) (skip : nat) (s : string) : string :=
  match s with
  | EmptyString => EmptyString
  | String c s' =>
      match skip with
      | S k => remove_from old k s'
      | O =>
          if String.prefix old s then remove_from old (String.length old - 1) s'
          else String c (remove_from old 0 s')
      end
  end.

Definition str_remove (old s : string) : string := remove_from old 0 s.

(** [s.split(sep, 1)]: the text before the first [sep], and the text after it
    when there is one. *)
Fixpoint split_once (sep : ascii) (s : string) : string * option string :=
  match s with
  | EmptyString => (EmptyString, None)
  | String c s' =>
      if Ascii.eqb c sep then (EmptyString, Some s')
      else let (before, after) := split_once sep s' in (String c before, after)
  end.

(** [url.lower().replace("https://", "").replace("http://", "")] *)
Definition clean_url (url : string) : string :=
  str_remove "http://" (str_remove "https://" (lower url)).

(** [token or ""]: [None] and the empty string both give the empty string. *)
Definition HTTPClient_init (token : option string) (url : string)
  : _HTTPClient :=
  let url := clean_url url in
  let url_split := split_once "/" url in
  mk_HTTPClient (default "" token) url_split.1 (default "" url_split.2).

(** The request target of [post]: [f"/{self._path}"]. *)
Definition request_target (client : _HTTPClient) : string :=
  "/" +:+ _path client.

(** [c in s] for a character. *)
Fixpoint has_char (c : ascii) (s : string) : bool :=
  match s with
  | EmptyString => false
  | String c' s' => Ascii.eqb c c' || has_char c s'
  end.

(* ===================================================================== *)
(** ** The renderers: [_stats_to_markdown], [_stats_to_text] *)
(* ===================================================================== *)

(** The line feed of the Python literals. *)
Definition nl : string := String (ascii_of_nat 10) EmptyString.

(** [str(n)] and [f"{n}"] for an [int]. *)
Definition str_of_int (n : Z) : string := NilZero.string_of_int (Z.to_int n).

(** [c * n] for a one-character string. *)
Fixpoint repeat_char (c : ascii) (n : nat) : string :=
  match n with
  | O => EmptyString
  | S n' => String c (repeat_char c n')
  end.

(** [f"{s:^width}"]: centred in [width] with spaces, the odd space on the
    right; a longer text is left as it is. *)
Definition center (width : nat) (s : string) : string :=
  let total := (width - String.length s)%nat in
  let left := (total / 2)%nat in
  repeat_char " " left +:+ s +:+ repeat_char " " (total - left).

(** [f"{s:width}"] for a string: padded with spaces on the right. *)
Definition ljust (width : nat) (s : string) : string :=
  s +:+ repeat_char " " (width - String.length s).

(** ["\n".join(rows)] *)
Fixpoint join_lines (rows : list string) : string :=
  match rows with
  | [] => EmptyString
  | [row] => row
  | row :: rows' => row +:+ nl +:+ join_lines rows'
  end.

(** [sum(f(pr) for pr in pull_requests)] *)
Definition total (f : PullRequest -> Z) (pull_requests : list PullRequest)
  : Z :=
  fold_left (fun acc pr => acc + f pr) pull_requests 0.

Definition markdown_row (pr : PullRequest) : string :=
  "| " +:+ reponame pr +:+ " | " +:+ str_of_int (additions pr) +:+ " | "
  +:+ str_of_int (deletions pr) +:+ " | " +:+ str_of_int (files pr)
  +:+ " | [see: #" +:+ str_of_int (number pr) +:+ "](" +:+ url pr +:+ ") |".

Definition _stats_to_markdown (contribs : Contributions)
    (pull_requests : list PullRequest) : string :=
  let total_adds := total additions pull_requests in
  let total_dels := total deletions pull_requests in
  let total_files := total files pull_requests in
  let summary_table :=
    [nl +:+ "**Daily GitHub Summary**:" +:+ nl;
     "| Contribution | Count | Metric | Total |";
     "| -- | -- | -- | -- |";
     "| Reviews | " +:+ str_of_int (reviews contribs)
     +:+ " | Files Changed | " +:+ str_of_int total_files +:+ " |";
     "| Issues | " +:+ str_of_int (issues contribs)
     +:+ " | Additions | " +:+ str_of_int total_adds +:+ " |";
     "| Commits | " +:+ str_of_int (commits contribs)
     +:+ " | Deletions | " +:+ str_of_int total_dels +:+ " |";
     "| Pull Requests | " +:+ str_of_int (pullrequests contribs) +:+ " | | |";
     nl +:+ "**Pull Request Breakdown**:" +:+ nl;
     "| Repo | Addition | Deletion | Files | Number |";
     "| -- | -- | -- | -- | -- |"] in
  join_lines (summary_table ++ map markdown_row pull_requests)%list.

Definition text_row (pr : PullRequest) : string :=
  "|" +:+ center 10 (str_of_int (additions pr))
  +:+ "|" +:+ center 10 (str_of_int (deletions pr))
  +:+ "|" +:+ center 7 (str_of_int (files pr))
  +:+ "|" +:+ center 8 (str_of_int (number pr))
  +:+ "| " +:+ url pr.

(** The first two literals of [summary] are adjacent with no comma between
    them, so Python joins them into one element. *)
Definition _stats_to_text (contribs : Contributions)
    (pull_requests : list PullRequest) : string :=
  let total_adds := total additions pull_requests in
  let total_dels := total deletions pull_requests in
  let total_files := total files pull_requests in
  let summary :=
    [nl +:+ "Daily GitHub Summary:" +:+ nl
     +:+ "|" +:+ center 20 "Contribution" +:+ "|" +:+ center 7 "Count"
     +:+ "|" +:+ center 15 "Metric" +:+ "|" +:+ center 7 "Total" +:+ "|";
     repeat_char "-" (20 + 7 + 15 + 7 + 5);
     "|" +:+ ljust 20 " Reviews"
     +:+ "|" +:+ center 7 (str_of_int (reviews contribs))
     +:+ "|" +:+ ljust 15 " Files Changed"
     +:+ "|" +:+ center 7 (str_of_int total_files) +:+ "|";
     "|" +:+ ljust 20 " Issue"
     +:+ "|" +:+ center 7 (str_of_int (issues contribs))
     +:+ "|" +:+ ljust 15 " Additions"
     +:+ "|" +:+ center 7 (str_of_int total_adds) +:+ "|";
     "|" +:+ ljust 20 " Commits"
     +:+ "|" +:+ center 7 (str_of_int (commits contribs))
     +:+ "|" +:+ ljust 15 " Deletions"
     +:+ "|" +:+ center 7 (str_of_int total_dels) +:+ "|";
     "|" +:+ ljust 20 " Pull Requests"
     +:+ "|" +:+ center 7 (str_of_int (pullrequests contribs))
     +:+ "|" +:+ ljust 15 "" +:+ "|" +:+ center 7 "" +:+ "|";
     nl +:+ "Pull Request Breakdown:" +:+ nl;
     "|" +:+ center 10 "Addition" +:+ "|" +:+ center 10 "Deletion"
     +:+ "|" +:+ center 7 "Files" +:+ "|" +:+ center 8 "Number" +:+ "| Url";
     repeat_char "-" (10 + 10 + 7 + 8 + 5)] in
  join_lines (summary ++ map text_row pull_requests)%list.

Definition generate_output (contribs : Contributions)
    (pull_requests : list PullRequest) (markdown : bool) : string :=
  if markdown then _stats_to_markdown contribs pull_requests
  else _stats_to_text contribs pull_requests.

(** The number of line feeds in a text: one less than its number of lines. *)
Fixpoint count_nl (s : string) : nat :=
  match s with
  | EmptyString => O
  | String c s' =>
      ((if Ascii.eqb c (ascii_of_nat 10) then 1 else 0) + count_nl s')%nat
  end.

(* ===================================================================== *)
(** * Properties *)
(* ===================================================================== *)

(** ** The tests of the repository, run on the embedding *)

Example bookend_test_from_now :
  _build_bookend_times (mkdatetime 1998 12 31 12 23 0 0) None None None
  = Ok (mkdatetime 1998 12 31 0 0 0 0, mkdatetime 1998 12 31 23 59 59 0).
Proof. reflexivity. Qed.

Example bookend_test_from_cli_time :
  _build_bookend_times (mkdatetime 1998 12 31 12 23 0 0)
    (Some 1999) (Some 12) (Some 31)
  = Ok (mkdatetime 1999 12 31 0 0 0 0, mkdatetime 1999 12 31 23 59 59 0).
Proof. reflexivity. Qed.

Example isoformat_test :
  isoformat (mkdatetime 1998 12 31 23 59 59 0) = "1998-12-31T23:59:59".
Proof. reflexivity. Qed.

Example datetime_add_test :
  datetime_add (mkdatetime 2023 9 1 23 59 59 0) (timedelta_hours 5)
  = Ok (mkdatetime 2023 9 2 4 59 59 0)
  /\ datetime_add (mkdatetime 2024 3 1 0 0 0 0) (timedelta_hours (-1))
     = Ok (mkdatetime 2024 2 29 23 0 0 0)
  /\ datetime_add (mkdatetime 1 1 1 0 0 0 0) (timedelta_hours (-1))
     = Raise OverflowError.
Proof. repeat split; reflexivity. Qed.

Example fromisoformat_seconds_test :
  fromisoformat_seconds (rstrip_Z "2023-09-01T04:51:04Z")
  = Some (mkdatetime 2023 9 1 4 51 4 0).
Proof. reflexivity. Qed.

Example get_stats_overflow_test :
  (get_stats scripted_post fromisoformat_seconds elements_order
     (-3600) (-3600) 0 5 (mkdatetime 2023 9 1 12 0 0 0) "preocts"
     (Some 1) (Some 1) (Some 1)
     ([ContribResponse contribs_once], [])).1
  = Raise OverflowError.
Proof. vm_compute. reflexivity. Qed.

(** ** Dates *)

Lemma cmp_fields_refl (a : list Z) : cmp_fields a a = Eq.
Proof.
  induction a as [|x a IH]; simpl; [reflexivity|].
  now rewrite Z.compare_refl.
Qed.

Lemma dt_gt_irrefl (t : datetime) : dt_gt t t = false.
Proof. unfold dt_gt, dt_cmp. now rewrite cmp_fields_refl. Qed.

Lemma dt_gt_neq (a b : datetime) : dt_gt a b = true -> a <> b.
Proof. intros H ->. rewrite dt_gt_irrefl in H. discriminate. Qed.

Lemma datetime_new_ok (y m d hh mm ss us : Z) (t : datetime) :
  datetime_new y m d hh mm ss us = Ok t ->
  t = mkdatetime y m d hh mm ss us
  /\ valid_date y m d = true /\ valid_time hh mm ss us = true.
Proof.
  unfold datetime_new.
  destruct (valid_date y m d) eqn:Hd, (valid_time hh mm ss us) eqn:Ht;
    simpl; intros H; inversion H; auto.
Qed.

Lemma override_zero (today : Z) : override (Some 0) today = today.
Proof. reflexivity. Qed.

(** ** Window Builder *)

Lemma overflows_zero : overflows (Some 0) = false.
Proof. reflexivity. Qed.

Lemma overflows_none : overflows None = false.
Proof. reflexivity. Qed.

(** A field whose final value fits a C [int] did not overflow. *)
Lemma overflows_of_fit (o : option Z) (today : Z) :
  INT_MIN <= override o today <= INT_MAX -> overflows o = false.
Proof.
  unfold overflows, override, truthy, arg_fits, fits_c_int.
  destruct o as [v|]; [|reflexivity].
  destruct (v =? 0); cbn [negb andb]; [reflexivity|].
  intros [Hlo Hhi].
  assert (Hmin : (INT_MIN <=? v) = true) by (apply Z.leb_le; exact Hlo).
  assert (Hmax : (v <=? INT_MAX) = true) by (apply Z.leb_le; exact Hhi).
  now rewrite Hmin, Hmax.
Qed.

(** The step [if field: now = now.replace(field=field)] written with
    [override] and [overflows]. *)
Lemma replace_year_step (now : datetime) (year : option Z) :
  valid_datetime now = true ->
  (if truthy year then replace now year None None None None None None
   else Ok now)
  = if overflows year then Raise OverflowError
    else datetime_new (override year (dt_year now)) (dt_month now)
           (dt_day now) (dt_hour now) (dt_minute now) (dt_second now)
           (dt_microsecond now).
Proof.
  intros Hnow. unfold override, overflows.
  destruct (truthy year); cbn [andb].
  - unfold replace. cbn [arg_fits]. rewrite !andb_true_r.
    now destruct (arg_fits year).
  - destruct now as [y m d hh mm ss us]. cbn in *.
    unfold valid_datetime in Hnow. cbn in Hnow.
    unfold datetime_new. now rewrite Hnow.
Qed.

Lemma replace_month_step (now : datetime) (month : option Z) :
  valid_datetime now = true ->
  (if truthy month then replace now None month None None None None None
   else Ok now)
  = if overflows month then Raise OverflowError
    else datetime_new (dt_year now) (override month (dt_month now))
           (dt_day now) (dt_hour now) (dt_minute now) (dt_second now)
           (dt_microsecond now).
Proof.
  intros Hnow. unfold override, overflows.
  destruct (truthy month); cbn [andb].
  - unfold replace. cbn [arg_fits]. rewrite !andb_true_r.
    now destruct (arg_fits month).
  - destruct now as [y m d hh mm ss us]. cbn in *.
    unfold valid_datetime in Hnow. cbn in Hnow.
    unfold datetime_new. now rewrite Hnow.
Qed.

Lemma replace_day_step (now : datetime) (day : option Z) :
  valid_datetime now = true ->
  (if truthy day then replace now None None day None None None None
   else Ok now)
  = if overflows day then Raise OverflowError
    else datetime_new (dt_year now) (dt_month now)
           (override day (dt_day now)) (dt_hour now) (dt_minute now)
           (dt_second now) (dt_microsecond now).
Proof.
  intros Hnow. unfold override, overflows.
  destruct (truthy day); cbn [andb].
  - unfold replace. cbn [arg_fits]. rewrite !andb_true_r.
    now destruct (arg_fits day).
  - destruct now as [y m d hh mm ss us]. cbn in *.
    unfold valid_datetime in Hnow. cbn in Hnow.
    unfold datetime_new. now rewrite Hnow.
Qed.

Lemma datetime_new_valid_datetime (y m d hh mm ss us : Z) (t : datetime) :
  datetime_new y m d hh mm ss us = Ok t -> valid_datetime t = true.
Proof.
  intros H. apply datetime_new_ok in H as (-> & Hd & Ht).
  unfold valid_datetime. simpl. now rewrite Hd, Ht.
Qed.

(** The Window Builder as three overrides in a row, each converted and then
    validated: the first step that fails decides the exception. *)
Lemma build_bookend_times_unfold (now : datetime) (year month day : option Z) :
  valid_datetime now = true ->
  let Y := override year (dt_year now) in
  let Mo := override month (dt_month now) in
  let D := override day (dt_day now) in
  _build_bookend_times now year month day
  = if overflows year then Raise OverflowError
    else if negb (valid_date Y (dt_month now) (dt_day now))
    then Raise ValueError
    else if overflows month then Raise OverflowError
    else if negb (valid_date Y Mo (dt_day now)) then Raise ValueError
    else if overflows day then Raise OverflowError
    else if negb (valid_date Y Mo D) then Raise ValueError
    else Ok (mkdatetime Y Mo D 0 0 0 0, mkdatetime Y Mo D 23 59 59 0).
Proof.
  intros Hnow Y Mo D. unfold _build_bookend_times.
  assert (Htime : valid_time (dt_hour now) (dt_minute now) (dt_second now)
                    (dt_microsecond now) = true).
  { unfold valid_datetime in Hnow. now apply andb_true_iff in Hnow. }
  rewrite (replace_year_step now year Hnow). fold Y.
  destruct (overflows year); [reflexivity|].
  unfold datetime_new at 1. rewrite Htime, andb_true_r.
  destruct (valid_date Y (dt_month now) (dt_day now)) eqn:H1;
    [|reflexivity].
  cbn [rbind negb].
  rewrite replace_month_step
    by (unfold valid_datetime; cbn; now rewrite H1, Htime).
  cbn [dt_year dt_month dt_day dt_hour dt_minute dt_second dt_microsecond].
  fold Mo.
  destruct (overflows month); [reflexivity|].
  unfold datetime_new at 1. rewrite Htime, andb_true_r.
  destruct (valid_date Y Mo (dt_day now)) eqn:H2; [|reflexivity].
  cbn [rbind negb].
  rewrite replace_day_step
    by (unfold valid_datetime; cbn; now rewrite H2, Htime).
  cbn [dt_year dt_month dt_day dt_hour dt_minute dt_second dt_microsecond].
  fold D.
  destruct (overflows day); [reflexivity|].
  unfold datetime_new at 1. rewrite Htime, andb_true_r.
  destruct (valid_date Y Mo D) eqn:H3; [|reflexivity].
  cbn [rbind negb]. unfold replace, datetime_new. cbn. now rewrite H3.
Qed.

(** ** The client monad *)

Section ClientLemmas.

Context {World : Type}.
Variable post : Query -> World -> Response * World.
Variable fromisoformat : string -> option datetime.

Lemma mbind_inv_ok {A B : Type} (m : M A) (k : A -> M B) (w w' : World)
    (b : B) :
  mbind m k w = (Ok b, w') ->
  exists (a : A) (w1 : World), m w = (Ok a, w1) /\ k a w1 = (Ok b, w').
Proof.
  unfold mbind. destruct (m w) as [[a|e|] w1]; intros H; try discriminate.
  now exists a, w1.
Qed.

(** *** One turn of the paging loop *)

Lemma fetch_pages_S (fuel : nat) (author repoowner reponame : string)
    (start_dt end_dt : datetime) (cursor : option string)
    (prs : list PullRequest) (w : World) :
  fetch_pages post fromisoformat (S fuel) author repoowner reponame
    start_dt end_dt cursor prs w
  = match post (_create_pull_request_query repoowner reponame cursor) w with
    | (ErrorResponse _, w') => (Ok [], w')
    | (ContribResponse _, w') => (Raise KeyError, w')
    | (PullsResponse rjson, w') =>
        match process_nodes fromisoformat author reponame start_dt end_dt
                (nodes rjson) (hasNextPage rjson) prs with
        | Ok (true, prs') =>
            fetch_pages post fromisoformat fuel author repoowner reponame
              start_dt end_dt (endCursor rjson) prs' w'
        | Ok (false, prs') => (Ok prs', w')
        | Raise e => (Raise e, w')
        | OutOfFuel => (OutOfFuel, w')
        end
    end.
Proof.
  cbn [fetch_pages]. unfold mbind, client_post, lift, mret.
  destruct (post _ w) as [[err|c|rjson] w']; try reflexivity.
  destruct (process_nodes _ _ _ _ _ _ _ _) as [[[] prs']|e|]; reflexivity.
Qed.

(** Turns that go round consume one unit of fuel each and lead from one
    loop state to the next. *)
Lemma fetch_pages_nsteps (author repoowner reponame : string)
    (start_dt end_dt : datetime) (n k : nat) (st st' : loop_state) :
  nsteps (page_step post fromisoformat author repoowner reponame
            start_dt end_dt) n st st' ->
  fetch_pages post fromisoformat (n + k) author repoowner reponame
    start_dt end_dt st.1.2 st.2 st.1.1
  = fetch_pages post fromisoformat k author repoowner reponame
      start_dt end_dt st'.1.2 st'.2 st'.1.1.
Proof.
  induction 1 as [st|n st st1 st' Hstep _ IH]; [reflexivity|].
  destruct Hstep as [w w' cursor prs prs' rjson Hpost Hnodes].
  cbn [Nat.add fst snd] in *.
  now rewrite fetch_pages_S, Hpost, Hnodes.
Qed.

End ClientLemmas.

(** ** Pull Request Fetcher: what one node does *)

Section NodeLemmas.

Variable fromisoformat : string -> option datetime.
Variables (author reponame : string) (start_dt end_dt : datetime).

Lemma process_node_unparsed (node : Node) (more : bool)
    (prs : list PullRequest) :
  fromisoformat (rstrip_Z (node_createdAt node)) = None ->
  process_node fromisoformat author reponame start_dt end_dt node more prs
  = Raise ValueError.
Proof. unfold process_node. now intros ->. Qed.



(** *** The window is open at both ends *)

Lemma process_node_in_window (node : Node) (more more' : bool)
    (prs prs' : list PullRequest) :
  Forall (in_window fromisoformat start_dt end_dt) prs ->
  process_node fromisoformat author reponame start_dt end_dt node more prs
  = Ok (more', prs') ->
  Forall (in_window fromisoformat start_dt end_dt) prs'.
Proof.
  intros Hprs. unfold process_node.
  destruct (fromisoformat _) as [t|] eqn:Ht; [|discriminate].
  destruct (negb (String.eqb _ _)); [now intros [= <- <-]|].
  destruct (dt_gt end_dt t) eqn:Hend, (dt_gt t start_dt) eqn:Hstart;
    cbn [andb negb]; intros [= <- <-]; try assumption.
  apply Forall_app. split; [assumption|].
  constructor; [|constructor].
  exists t. cbn [created_at]. repeat split; try assumption.
  - now apply dt_gt_neq.
  - intros ->. now rewrite dt_gt_irrefl in Hend.
Qed.

Lemma process_nodes_in_window (nodes : list Node) (more more' : bool)
    (prs prs' : list PullRequest) :
  Forall (in_window fromisoformat start_dt end_dt) prs ->
  process_nodes fromisoformat author reponame start_dt end_dt nodes more prs
  = Ok (more', prs') ->
  Forall (in_window fromisoformat start_dt end_dt) prs'.
Proof.
  revert more prs. induction nodes as [|node nodes IH]; intros more prs Hprs.
  - now intros [= <- <-].
  - cbn [process_nodes].
    destruct (process_node fromisoformat author reponame start_dt end_dt
                node more prs)
      as [[more1 prs1]|e|] eqn:Hnode;
      cbn [rbind]; try discriminate.
    apply IH. eapply process_node_in_window; eassumption.
Qed.

(** *** The value of [more] after a page *)

Lemma process_node_signal (node : Node) (more more' : bool)
    (prs prs' : list PullRequest) :
  process_node fromisoformat author reponame start_dt end_dt node more prs
  = Ok (more', prs') ->
  more' = default more (node_signal fromisoformat author start_dt end_dt node).
Proof.
  unfold process_node, node_signal.
  destruct (fromisoformat _) as [t|]; [|discriminate].
  destruct (String.eqb _ _); cbn [negb]; [|now intros [= <- <-]].
  destruct (dt_gt end_dt t && dt_gt t start_dt); cbn [negb];
    now intros [= <- <-].
Qed.

Lemma process_nodes_signal (nodes : list Node) (more more' : bool)
    (prs prs' : list PullRequest) :
  process_nodes fromisoformat author reponame start_dt end_dt nodes more prs
  = Ok (more', prs') ->
  more' = default more (last_signal fromisoformat author start_dt end_dt nodes).
Proof.
  revert more prs. induction nodes as [|node nodes IH]; intros more prs.
  - now intros [= <- <-].
  - cbn [process_nodes last_signal].
    destruct (process_node fromisoformat author reponame start_dt end_dt
                node more prs)
      as [[more1 prs1]|e|] eqn:Hnode;
      cbn [rbind]; try discriminate.
    intros H. apply IH in H. apply process_node_signal in Hnode.
    destruct (last_signal _ _ _ _ nodes); cbn [default] in *; congruence.
Qed.

End NodeLemmas.

(** ** Pull Request Fetcher: the paging loop *)

Section PagingLemmas.

Context {World : Type}.
Variable post : Query -> World -> Response * World.
Variable fromisoformat : string -> option datetime.
Variables (author repoowner reponame : string) (start_dt end_dt : datetime).

Lemma fetch_pages_in_window (fuel : nat) (cursor : option string)
    (prs out : list PullRequest) (w w' : World) :
  Forall (in_window fromisoformat start_dt end_dt) prs ->
  fetch_pages post fromisoformat fuel author repoowner reponame
    start_dt end_dt cursor prs w = (Ok out, w') ->
  Forall (in_window fromisoformat start_dt end_dt) out.
Proof.
  revert cursor prs w. induction fuel as [|fuel IH]; intros cursor prs w Hprs;
    [discriminate|].
  rewrite fetch_pages_S.
  destruct (post _ w) as [[err|c|rjson] w1]; try discriminate.
  - intros [= <- <-]. constructor.
  - destruct (process_nodes _ _ _ _ _ _ _ _) as [[more1 prs1]|e|] eqn:Hnodes;
      try discriminate.
    apply process_nodes_in_window in Hnodes; [|assumption].
    destruct more1; [now apply IH|now intros [= <- <-]].
Qed.

(** More fuel than the loop needs changes nothing. *)
Lemma fetch_pages_fuel_mono (fuel fuel' : nat) (cursor : option string)
    (prs : list PullRequest) (w : World) :
  (fuel <= fuel')%nat ->
  (fetch_pages post fromisoformat fuel author repoowner reponame
     start_dt end_dt cursor prs w).1 <> OutOfFuel ->
  fetch_pages post fromisoformat fuel' author repoowner reponame
    start_dt end_dt cursor prs w
  = fetch_pages post fromisoformat fuel author repoowner reponame
      start_dt end_dt cursor prs w.
Proof.
  revert fuel' cursor prs w.
  induction fuel as [|fuel IH]; intros fuel' cursor prs w Hle;
    [intros H; now contradict H|].
  destruct fuel' as [|fuel']; [lia|].
  rewrite !fetch_pages_S.
  destruct (post _ w) as [[err|c|rjson] w1]; try reflexivity.
  destruct (process_nodes _ _ _ _ _ _ _ _) as [[[] prs1]|e|];
    try reflexivity.
  apply IH. lia.
Qed.

End PagingLemmas.

(** ** Contribution Fetcher *)

(** C6. When the response to the contributions query has no ["data"] key,
    [_fetch_contributions] returns, without raising, a [Contributions] whose
    four counters are 0 and whose repository set is empty. *)
Theorem C6_contributions_soft_fail {World : Type}
    (post : Query -> World -> Response * World) (loginname : string)
    (start_dt end_dt : datetime) (w : World) :
  has_data
    (post (_create_contrib_query loginname (isoformat start_dt +:+ "Z")
             (isoformat end_dt +:+ "Z")) w).1 = false ->
  exists c : Contributions,
    (_fetch_contributions post loginname start_dt end_dt w).1 = Ok c
    /\ commits c = 0 /\ issues c = 0 /\ pullrequests c = 0 /\ reviews c = 0
    /\ pr_repos c = ∅.
Proof.
  intros Hdata. unfold _fetch_contributions, mbind, client_post, mret.
  destruct (post _ w) as [[err|c|rjson] w']; cbn in Hdata; try discriminate.
  eexists. cbn. repeat split; reflexivity.
Qed.

Lemma C6_contributions_soft_fail_witness :
  has_data
    (scripted_post
       (_create_contrib_query "mockname" (isoformat day_start +:+ "Z")
          (isoformat day_end +:+ "Z"))
       ([ErrorResponse "json machine broken"], [])).1 = false
  /\ exists c : Contributions,
      (_fetch_contributions scripted_post "mockname" day_start day_end
         ([ErrorResponse "json machine broken"], [])).1 = Ok c
      /\ commits c = 0 /\ issues c = 0 /\ pullrequests c = 0 /\ reviews c = 0
      /\ pr_repos c = ∅.
Proof.
  split; [reflexivity|].
  apply (C6_contributions_soft_fail scripted_post). reflexivity.
Defined.

(** ** Pull Request Fetcher *)



(** C4. The window is open at both ends: every record [_fetch_pull_requests]
    returns has a creation timestamp that parses to a time strictly after
    [start_dt] and strictly before [end_dt], hence different from both; and a
    node whose timestamp is exactly [start_dt] or [end_dt] adds no record. *)
Theorem C4_window_excludes_its_bounds {World : Type}
    (post : Query -> World -> Response * World)
    (fromisoformat : string -> option datetime) (fuel : nat)
    (author repoowner reponame : string) (start_dt end_dt : datetime) :
  (forall (w w' : World) (prs : list PullRequest),
      _fetch_pull_requests post fromisoformat fuel author repoowner reponame
        start_dt end_dt w = (Ok prs, w') ->
      Forall (fun pr =>
                exists t : datetime,
                  fromisoformat (rstrip_Z (created_at pr)) = Some t
                  /\ dt_gt t start_dt = true /\ dt_gt end_dt t = true
                  /\ t <> start_dt /\ t <> end_dt) prs)
  /\ (forall (node : Node) (t : datetime) (more : bool)
             (prs : list PullRequest),
        fromisoformat (rstrip_Z (node_createdAt node)) = Some t ->
        t = start_dt \/ t = end_dt ->
        exists more' : bool,
          process_node fromisoformat author reponame start_dt end_dt node more
            prs = Ok (more', prs)).
Proof.
  split.
  - intros w w' prs Hrun.
    eapply (fetch_pages_in_window post fromisoformat); [|exact Hrun].
    constructor.
  - intros node t more prs Hparse Hbound. unfold process_node. rewrite Hparse.
    destruct (negb (String.eqb _ _)); [now exists more|].
    assert (Hout : dt_gt end_dt t && dt_gt t start_dt = false).
    { destruct Hbound as [-> | ->]; rewrite dt_gt_irrefl;
        [apply andb_false_r | reflexivity]. }
    rewrite Hout. cbn [negb]. eauto.
Qed.

Lemma C4_window_excludes_its_bounds_witness :
  _fetch_pull_requests scripted_post fromisoformat_seconds 5 "preocts"
    "preocts" "daystats" day_start day_end ([PullsResponse page_bounds], [])
  = (Ok [sample_record "2023-09-01T04:51:04Z" 8],
     ([], [PullRequestQuery "preocts" "daystats" None]))
  /\ Forall (fun pr =>
               exists t : datetime,
                 fromisoformat_seconds (rstrip_Z (created_at pr)) = Some t
                 /\ dt_gt t day_start = true /\ dt_gt day_end t = true
                 /\ t <> day_start /\ t <> day_end)
       [sample_record "2023-09-01T04:51:04Z" 8]
  /\ (exists more' : bool,
        process_node fromisoformat_seconds "preocts" "daystats" day_start
          day_end (sample_node "Preocts" "2023-09-01T00:00:00Z" 7) true []
        = Ok (more', []))
  /\ (exists more' : bool,
        process_node fromisoformat_seconds "preocts" "daystats" day_start
          day_end (sample_node "Preocts" "2023-09-01T23:59:59Z" 9) true []
        = Ok (more', [])).
Proof.
  destruct (C4_window_excludes_its_bounds scripted_post fromisoformat_seconds
              5 "preocts" "preocts" "daystats" day_start day_end)
    as (Hout & Hbound).
  repeat apply conj.
  - reflexivity.
  - eapply (Hout ([PullsResponse page_bounds], [])). reflexivity.
  - eapply Hbound; [reflexivity | left; reflexivity].
  - eapply Hbound; [reflexivity | right; reflexivity].
Defined.

(** C5. However many pages the loop has gone through and whatever it has
    collected from them, a page whose response has no ["data"] key makes
    [_fetch_pull_requests] return the empty list at once: with [n] full turns
    of the loop leading from the initial state to [(w, cursor, prs)] and the
    next response lacking ["data"], any fuel above [n] gives [Ok []] in the
    world right after that response. *)
Theorem C5_no_partial_results {World : Type}
    (post : Query -> World -> Response * World)
    (fromisoformat : string -> option datetime)
    (author repoowner reponame : string) (start_dt end_dt : datetime)
    (n fuel : nat) (w0 w : World) (cursor : option string)
    (prs : list PullRequest) :
  nsteps (page_step post fromisoformat author repoowner reponame start_dt
            end_dt) n (w0, None, []) (w, cursor, prs) ->
  has_data (post (_create_pull_request_query repoowner reponame cursor) w).1
  = false ->
  (n < fuel)%nat ->
  _fetch_pull_requests post fromisoformat fuel author repoowner reponame
    start_dt end_dt w0
  = (Ok [], (post (_create_pull_request_query repoowner reponame cursor) w).2).
Proof.
  intros Hsteps Hdata Hfuel. unfold _fetch_pull_requests.
  replace fuel with (n + S (fuel - S n))%nat by lia.
  rewrite (fetch_pages_nsteps post fromisoformat author repoowner reponame
             start_dt end_dt n _ _ _ Hsteps).
  cbn [fst snd]. rewrite fetch_pages_S.
  destruct (post _ w) as [[err|c|rjson] w']; cbn in Hdata; try discriminate.
  reflexivity.
Qed.

Lemma C5_no_partial_results_witness :
  nsteps (page_step scripted_post fromisoformat_seconds "preocts" "preocts"
            "daystats" day_start day_end) 1
    (([PullsResponse page_of_the_day; ErrorResponse "json machine broken"], []),
     None, [])
    (([ErrorResponse "json machine broken"],
      [PullRequestQuery "preocts" "daystats" None]),
     Some "Y3Vyc29yOjE=", [sample_record "2023-09-01T04:51:04Z" 5])
  /\ _fetch_pull_requests scripted_post fromisoformat_seconds 2 "preocts"
       "preocts" "daystats" day_start day_end
       ([PullsResponse page_of_the_day; ErrorResponse "json machine broken"],
        [])
     = (Ok [],
        ([], [PullRequestQuery "preocts" "daystats" None;
              PullRequestQuery "preocts" "daystats" (Some "Y3Vyc29yOjE=")])).
Proof.
  assert (Hsteps :
    nsteps (page_step scripted_post fromisoformat_seconds "preocts" "preocts"
              "daystats" day_start day_end) 1
      (([PullsResponse page_of_the_day; ErrorResponse "json machine broken"],
        []), None, [])
      (([ErrorResponse "json machine broken"],
        [PullRequestQuery "preocts" "daystats" None]),
       Some "Y3Vyc29yOjE=", [sample_record "2023-09-01T04:51:04Z" 5])).
  { eapply nsteps_l; [|apply nsteps_O].
    apply (page_step_more scripted_post fromisoformat_seconds "preocts"
             "preocts" "daystats" day_start day_end _ _ None [] _
             page_of_the_day); reflexivity. }
  split; [exact Hsteps|].
  apply (C5_no_partial_results scripted_post fromisoformat_seconds "preocts"
           "preocts" "daystats" day_start day_end 1 2 _ _ _ _ Hsteps);
    [reflexivity | lia].
Defined.

(** C1. The paging loop on a repository with a single page whose latest pull
    request by the author is newer than the window: the server reports
    [hasNextPage = false], the node assigns [more = created_at > start_dt],
    which is true, and a second page is requested with the page's cursor. *)
Theorem C1_page_requested_after_last_page :
  hasNextPage page_day_after = false
  /\ last_signal fromisoformat_seconds "preocts" day_start day_end
       (nodes page_day_after) = Some true
  /\ _fetch_pull_requests scripted_post fromisoformat_seconds 5 "preocts"
       "preocts" "daystats" day_start day_end
       ([PullsResponse page_day_after; PullsResponse page_empty], [])
     = (Ok [],
        ([], [PullRequestQuery "preocts" "daystats" None;
              PullRequestQuery "preocts" "daystats" (Some "Y3Vyc29yOjI=")])).
Proof. repeat apply conj; reflexivity. Qed.

(** ** Contribution Fetcher: the repository set *)

Lemma elem_of_fold_add_repo (entries : list RepoJson) (acc : gset Repo)
    (r : Repo) :
  r ∈ fold_left add_repo entries acc
  <-> r ∈ acc
      \/ exists pr : RepoJson,
          pr ∈ entries
          /\ r = mkRepo (repository_owner_login pr) (repository_name pr).
Proof.
  revert acc. induction entries as [|pr entries IH]; intros acc;
    cbn [fold_left].
  - split; [auto|]. intros [H | (pr & Hin & _)]; [exact H|].
    now apply elem_of_nil in Hin.
  - rewrite IH. unfold add_repo. rewrite elem_of_union, elem_of_singleton.
    split.
    + intros [[H | ->] | (pr' & Hin & ->)]; [now left | right | right].
      * exists pr. split; [apply list_elem_of_here | reflexivity].
      * exists pr'. split; [now apply list_elem_of_further | reflexivity].
    + intros [H | (pr' & Hin & ->)]; [now left; left|].
      apply elem_of_cons in Hin as [-> | Hin]; [left; now right|].
      right. now exists pr'.
Qed.

Lemma fetch_contributions_data {World : Type}
    (post : Query -> World -> Response * World) (loginname : string)
    (start_dt end_dt : datetime) (w w' : World) (contribs : ContribsJson) :
  post (_create_contrib_query loginname (isoformat start_dt +:+ "Z")
          (isoformat end_dt +:+ "Z")) w = (ContribResponse contribs, w') ->
  _fetch_contributions post loginname start_dt end_dt w
  = (Ok (mkContributions
           (totalCommitContributions contribs)
           (totalIssueContributions contribs)
           (totalPullRequestContributions contribs)
           (totalPullRequestReviewContributions contribs)
           (fold_left add_repo
              (pullRequestContributionsByRepository contribs) ∅)), w').
Proof.
  intros Hpost. unfold _fetch_contributions, mbind, client_post, mret.
  now rewrite Hpost.
Qed.

(** C8. In the [Contributions] built from a response with ["data"], a
    repository is in [pr_repos] exactly when some entry carries its
    [(owner, name)] pair, compared as strings; so when the entries, however
    many, all carry one pair the set has exactly one element, and two entries
    whose pairs differ, be it only in letter case, give at least two. *)
Theorem C8_pr_repos_deduplicates {World : Type}
    (post : Query -> World -> Response * World) (loginname : string)
    (start_dt end_dt : datetime) (w w' : World) (contribs : ContribsJson) :
  post (_create_contrib_query loginname (isoformat start_dt +:+ "Z")
          (isoformat end_dt +:+ "Z")) w = (ContribResponse contribs, w') ->
  exists c : Contributions,
    _fetch_contributions post loginname start_dt end_dt w = (Ok c, w')
    /\ (forall r : Repo,
           r ∈ pr_repos c
           <-> exists pr : RepoJson,
               pr ∈ pullRequestContributionsByRepository contribs
               /\ repository_owner_login pr = owner r
               /\ repository_name pr = name r)
    /\ (forall o n : string,
           pullRequestContributionsByRepository contribs <> [] ->
           (forall pr : RepoJson,
               pr ∈ pullRequestContributionsByRepository contribs ->
               repository_owner_login pr = o /\ repository_name pr = n) ->
           pr_repos c = {[ mkRepo o n ]} /\ size (pr_repos c) = 1%nat)
    /\ (forall pr1 pr2 : RepoJson,
           pr1 ∈ pullRequestContributionsByRepository contribs ->
           pr2 ∈ pullRequestContributionsByRepository contribs ->
           repository_owner_login pr1 <> repository_owner_login pr2
           \/ repository_name pr1 <> repository_name pr2 ->
           (2 <= size (pr_repos c))%nat).
Proof.
  intros Hpost. eexists. split.
  { exact (fetch_contributions_data post loginname start_dt end_dt w w'
             contribs Hpost). }
  cbn [pr_repos].
  set (entries := pullRequestContributionsByRepository contribs).
  assert (Hmem : forall r : Repo,
             r ∈ fold_left add_repo entries ∅
             <-> exists pr : RepoJson,
                 pr ∈ entries
                 /\ repository_owner_login pr = owner r
                 /\ repository_name pr = name r).
  { intros r. rewrite elem_of_fold_add_repo. split.
    - intros [H | (pr & Hin & ->)]; [now apply not_elem_of_empty in H|].
      now exists pr.
    - intros (pr & Hin & Ho & Hn). right. exists pr. split; [exact Hin|].
      destruct r as [o n]. cbn in Ho, Hn. now subst. }
  repeat apply conj.
  - exact Hmem.
  - intros o n Hne Hall.
    assert (Heq : fold_left add_repo entries ∅ = {[ mkRepo o n ]}).
    { apply set_eq. intros r. rewrite Hmem, elem_of_singleton. split.
      - intros (pr & Hin & Ho & Hn). destruct (Hall pr Hin) as [<- <-].
        destruct r as [ro rn]. cbn in Ho, Hn. now subst.
      - intros ->. destruct entries as [|pr rest] eqn:Hentries;
          [contradiction|].
        exists pr. split; [apply list_elem_of_here|].
        apply (Hall pr). apply list_elem_of_here. }
    split; [exact Heq|]. rewrite Heq. apply size_singleton.
  - intros pr1 pr2 Hin1 Hin2 Hdiff.
    set (r1 := mkRepo (repository_owner_login pr1) (repository_name pr1)).
    set (r2 := mkRepo (repository_owner_login pr2) (repository_name pr2)).
    assert (Hsub : ({[ r1; r2 ]} : gset Repo) ⊆ fold_left add_repo entries ∅).
    { intros r Hr. apply Hmem.
      apply elem_of_union in Hr as [Hr | Hr]; apply elem_of_singleton in Hr;
        subst r; [now exists pr1 | now exists pr2]. }
    apply subseteq_size in Hsub.
    rewrite size_union in Hsub.
    + rewrite !size_singleton in Hsub. exact Hsub.
    + apply disjoint_singleton_l. rewrite elem_of_singleton.
      unfold r1, r2. intros [= Ho Hn]. destruct Hdiff; contradiction.
Qed.

Lemma C8_pr_repos_deduplicates_witness :
  exists c : Contributions,
    _fetch_contributions scripted_post "preocts" day_start day_end
      ([ContribResponse
          (mkContribsJson 5 1 3 0
             [mkRepoJson "Preocts" "daystats"; mkRepoJson "Preocts" "daystats";
              mkRepoJson "Preocts" "daystats"])], [])
    = (Ok c,
       ([], [ContribQuery "preocts" "2023-09-01T00:00:00Z"
               "2023-09-01T23:59:59Z"]))
    /\ pr_repos c = {[ mkRepo "Preocts" "daystats" ]}
    /\ size (pr_repos c) = 1%nat.
Proof.
  destruct (C8_pr_repos_deduplicates scripted_post "preocts" day_start day_end
              ([ContribResponse
                  (mkContribsJson 5 1 3 0
                     [mkRepoJson "Preocts" "daystats";
                      mkRepoJson "Preocts" "daystats";
                      mkRepoJson "Preocts" "daystats"])], [])
              ([], [ContribQuery "preocts" "2023-09-01T00:00:00Z"
                      "2023-09-01T23:59:59Z"])
              (mkContribsJson 5 1 3 0
                 [mkRepoJson "Preocts" "daystats";
                  mkRepoJson "Preocts" "daystats";
                  mkRepoJson "Preocts" "daystats"]) eq_refl)
    as (c & Hrun & _ & Hone & _).
  exists c. split; [exact Hrun|].
  apply Hone; [discriminate|].
  cbn [pullRequestContributionsByRepository]. intros pr Hin.
  repeat (apply elem_of_cons in Hin as [-> | Hin]; [split; reflexivity|]).
  now apply elem_of_nil in Hin.
Defined.

Example pr_repos_is_case_sensitive :
  size (pr_repos
          (mkContributions 0 0 0 0
             (fold_left add_repo
                [mkRepoJson "Preocts" "daystats";
                 mkRepoJson "preocts" "daystats"]
                ∅))) = 2%nat.
Proof. vm_compute. reflexivity. Qed.

(** ** Window Builder: the claims *)

(** C10. A field passed as 0 is not truthy, so [_build_bookend_times] skips
    its [replace] exactly as for an omitted field: the result with [Some 0]
    is the result with [None], for each of the three fields; with the three
    of them 0 and a valid clock reading the result is today's window, not an
    error. *)
Theorem C10_zero_is_unspecified (now : datetime) (year month day : option Z) :
  _build_bookend_times now (Some 0) month day
  = _build_bookend_times now None month day
  /\ _build_bookend_times now year (Some 0) day
     = _build_bookend_times now year None day
  /\ _build_bookend_times now year month (Some 0)
     = _build_bookend_times now year month None
  /\ (valid_datetime now = true ->
      _build_bookend_times now (Some 0) (Some 0) (Some 0)
      = Ok (mkdatetime (dt_year now) (dt_month now) (dt_day now) 0 0 0 0,
            mkdatetime (dt_year now) (dt_month now) (dt_day now) 23 59 59 0)).
Proof.
  repeat apply conj; try reflexivity.
  intros Hnow. rewrite build_bookend_times_unfold by exact Hnow.
  cbn zeta. rewrite !override_zero, !overflows_zero.
  assert (Hdate : valid_date (dt_year now) (dt_month now) (dt_day now) = true).
  { unfold valid_datetime in Hnow. now apply andb_true_iff in Hnow. }
  now rewrite Hdate.
Qed.

Lemma C10_zero_is_unspecified_witness :
  valid_datetime (mkdatetime 1998 12 31 12 23 0 0) = true
  /\ _build_bookend_times (mkdatetime 1998 12 31 12 23 0 0)
       (Some 0) (Some 0) (Some 0)
     = Ok (mkdatetime 1998 12 31 0 0 0 0, mkdatetime 1998 12 31 23 59 59 0)
  /\ _build_bookend_times (mkdatetime 1998 12 31 12 23 0 0)
       (Some 1999) (Some 0) (Some 15)
     = _build_bookend_times (mkdatetime 1998 12 31 12 23 0 0)
         (Some 1999) None (Some 15).
Proof.
  destruct (C10_zero_is_unspecified (mkdatetime 1998 12 31 12 23 0 0)
              (Some 1999) (Some 0) (Some 15)) as (_ & Hmonth & _ & Hall).
  repeat apply conj; [reflexivity | apply Hall; reflexivity | exact Hmonth].
Defined.

(** C2. Two runs of [_build_bookend_times] on valid target dates. On
    2023-01-31 the request [month=2, day=15] names 2023-02-15, but
    [now.replace(month=2)] is validated with the day still 31 and raises; on
    2024-02-29 the full request 2023-03-01 raises at [now.replace(year=2023)]
    with the date still on 29 February. *)
Theorem C2_valid_date_raises :
  valid_datetime (mkdatetime 2023 1 31 12 23 0 0) = true
  /\ valid_date 2023 2 15 = true
  /\ _build_bookend_times (mkdatetime 2023 1 31 12 23 0 0)
       None (Some 2) (Some 15) = Raise ValueError
  /\ valid_datetime (mkdatetime 2024 2 29 12 23 0 0) = true
  /\ valid_date 2023 3 1 = true
  /\ _build_bookend_times (mkdatetime 2024 2 29 12 23 0 0)
       (Some 2023) (Some 3) (Some 1) = Raise ValueError.
Proof. repeat apply conj; reflexivity. Qed.

(** When the Window Builder returns, the window is the whole day of the
    overridden date. *)
Lemma build_bookend_times_ok (now : datetime) (year month day : option Z)
    (start_dt end_dt : datetime) :
  valid_datetime now = true ->
  _build_bookend_times now year month day = Ok (start_dt, end_dt) ->
  let Y := override year (dt_year now) in
  let Mo := override month (dt_month now) in
  let D := override day (dt_day now) in
  valid_date Y Mo D = true
  /\ start_dt = mkdatetime Y Mo D 0 0 0 0
  /\ end_dt = mkdatetime Y Mo D 23 59 59 0.
Proof.
  intros Hnow. rewrite build_bookend_times_unfold by exact Hnow. cbn zeta.
  destruct (overflows year); [discriminate|].
  destruct (valid_date _ (dt_month now) (dt_day now)); [|discriminate].
  destruct (overflows month); [discriminate|].
  destruct (valid_date _ _ (dt_day now)); [|discriminate].
  destruct (overflows day); [discriminate|].
  destruct (valid_date _ _ _) eqn:Hfinal; [|discriminate].
  cbn [negb]. now intros [= <- <-].
Qed.



(** ** Orchestrator *)

Section OrchestratorLemmas.

Context {World : Type}.
Variable post : Query -> World -> Response * World.
Variable fromisoformat : string -> option datetime.
Variable set_iter : gset Repo -> list Repo.
Variables (altzone timezone daylight : Z).
Variables (fuel : nat) (loginname : string).

Lemma get_stats_build_raise (now : datetime) (year month day : option Z)
    (e : exn) (w : World) :
  _build_bookend_times now year month day = Raise e ->
  get_stats post fromisoformat set_iter altzone timezone daylight fuel now
    loginname year month day w = (Raise e, w).
Proof. intros H. unfold get_stats, mbind, lift. now rewrite H. Qed.

Lemma get_stats_build_ok (now : datetime) (year month day : option Z)
    (start_dt end_dt : datetime) (w : World) :
  _build_bookend_times now year month day = Ok (start_dt, end_dt) ->
  get_stats post fromisoformat set_iter altzone timezone daylight fuel now
    loginname year month day w
  = match _fetch_contributions post loginname start_dt end_dt w with
    | (Ok contribs, w1) =>
        match fetch_repos post fromisoformat altzone timezone daylight fuel
                loginname start_dt end_dt (set_iter (pr_repos contribs)) []
                w1 with
        | (Ok pull_requests, w2) => (Ok (contribs, pull_requests), w2)
        | (Raise e, w2) => (Raise e, w2)
        | (OutOfFuel, w2) => (OutOfFuel, w2)
        end
    | (Raise e, w1) => (Raise e, w1)
    | (OutOfFuel, w1) => (OutOfFuel, w1)
    end.
Proof.
  intros H. unfold get_stats, mbind, lift, mret. rewrite H.
  destruct (_fetch_contributions _ _ _ _ w) as [[c|e|] w1]; try reflexivity.
Qed.

Lemma fetch_repos_cons (start_dt end_dt start_utc end_utc : datetime)
    (repo : Repo) (repos : list Repo) (acc : list PullRequest) (w : World) :
  datetime_add start_dt (UTC_OFFSET altzone timezone daylight) = Ok start_utc ->
  datetime_add end_dt (UTC_OFFSET altzone timezone daylight) = Ok end_utc ->
  fetch_repos post fromisoformat altzone timezone daylight fuel loginname
    start_dt end_dt (repo :: repos) acc w
  = match _fetch_pull_requests post fromisoformat fuel loginname (owner repo)
            (name repo) start_utc end_utc w with
    | (Ok prs, w1) =>
        fetch_repos post fromisoformat altzone timezone daylight fuel
          loginname start_dt end_dt repos (acc ++ prs)%list w1
    | (Raise e, w1) => (Raise e, w1)
    | (OutOfFuel, w1) => (OutOfFuel, w1)
    end.
Proof.
  intros Hs He. cbn [fetch_repos]. unfold mbind, lift. now rewrite Hs, He.
Qed.

(** The [for] loop extends the list by each repository's result, in turn. *)
Lemma fetch_repos_each (start_dt end_dt start_utc end_utc : datetime)
    (repos : list Repo) (acc : list PullRequest) (w w' : World)
    (results : list (list PullRequest)) :
  datetime_add start_dt (UTC_OFFSET altzone timezone daylight) = Ok start_utc ->
  datetime_add end_dt (UTC_OFFSET altzone timezone daylight) = Ok end_utc ->
  fetch_each post fromisoformat fuel loginname start_utc end_utc repos w
    results w' ->
  fetch_repos post fromisoformat altzone timezone daylight fuel loginname
    start_dt end_dt repos acc w
  = (Ok (acc ++ concat results)%list, w').
Proof.
  intros Hs He Heach. revert acc.
  induction Heach as [w|repo repos w w1 w2 prs rest Hfetch _ IH]; intros acc.
  - cbn. now rewrite app_nil_r.
  - rewrite (fetch_repos_cons _ _ _ _ _ _ _ _ Hs He), Hfetch, IH.
    cbn [concat]. now rewrite app_assoc.
Qed.

Lemma fetch_repos_inv (start_dt end_dt : datetime) (repos : list Repo)
    (acc out : list PullRequest) (w w' : World) :
  fetch_repos post fromisoformat altzone timezone daylight fuel loginname
    start_dt end_dt repos acc w = (Ok out, w') ->
  (repos = [] /\ out = acc /\ w' = w)
  \/ exists (start_utc end_utc : datetime) (results : list (list PullRequest)),
      datetime_add start_dt (UTC_OFFSET altzone timezone daylight)
      = Ok start_utc
      /\ datetime_add end_dt (UTC_OFFSET altzone timezone daylight)
         = Ok end_utc
      /\ fetch_each post fromisoformat fuel loginname start_utc end_utc repos
           w results w'
      /\ out = (acc ++ concat results)%list.
Proof.
  revert acc w. induction repos as [|repo repos IH]; intros acc w.
  - cbn. intros [= <- <-]. now left.
  - intros Hrun. right. cbn [fetch_repos] in Hrun.
    apply mbind_inv_ok in Hrun as (start_utc & w1 & Hs & Hrun).
    apply mbind_inv_ok in Hrun as (end_utc & w2 & He & Hrun).
    apply mbind_inv_ok in Hrun as (prs & w3 & Hfetch & Hrun).
    unfold lift in Hs, He. injection Hs as Hs <-. injection He as He <-.
    exists start_utc, end_utc.
    destruct (IH _ _ Hrun)
      as [(-> & -> & ->) | (s' & e' & rest & Hs' & He' & Heach & ->)].
    + exists [prs]. repeat split; try assumption.
      * econstructor; [exact Hfetch | constructor].
      * cbn. now rewrite app_nil_r.
    + rewrite Hs in Hs'. rewrite He in He'.
      injection Hs' as <-. injection He' as <-.
      exists (prs :: rest). repeat split; try assumption.
      * econstructor; eassumption.
      * cbn. now rewrite app_assoc.
Qed.

End OrchestratorLemmas.

(** C3. A run of [get_stats] on a machine five and a half hours east of
    Greenwich with no daylight saving time ([time.timezone = time.altzone =
    -19800], [time.daylight = 0]), asked for 2023-09-01. [UTC_OFFSET] is
    minus six hours, not the machine's offset, so the window for the pull
    requests starts at 18:00:00 UTC on 31 August while the local day starts
    at 18:30:00 UTC, and a pull request opened at 18:15:00 UTC, the evening
    before the day asked for, is returned. In a zone with daylight saving
    time [OFFSET] is [time.altzone] in winter too. *)
Theorem C3_shift_is_not_the_local_utc_offset :
  OFFSET (-19800) (-19800) 0 = -19800
  /\ UTC_OFFSET (-19800) (-19800) 0 = timedelta_hours (-6)
  /\ datetime_add day_start (UTC_OFFSET (-19800) (-19800) 0)
     = Ok (mkdatetime 2023 8 31 18 0 0 0)
  /\ datetime_add day_start (timedelta_seconds (-19800))
     = Ok (mkdatetime 2023 8 31 18 30 0 0)
  /\ (get_stats scripted_post fromisoformat_seconds elements_order
        (-19800) (-19800) 0 5 (mkdatetime 2023 9 1 12 23 0 0) "preocts"
        (Some 2023) (Some 9) (Some 1)
        ([ContribResponse contribs_once; PullsResponse page_evening_before],
         [])).1
     = Ok (mkContributions 5 1 2 0 {[ mkRepo "Preocts" "daystats" ]},
           [sample_record "2023-08-31T18:15:00Z" 11])
  /\ fromisoformat_seconds (rstrip_Z "2023-08-31T18:15:00Z")
     = Some (mkdatetime 2023 8 31 18 15 0 0)
  /\ dt_gt (mkdatetime 2023 8 31 18 30 0 0) (mkdatetime 2023 8 31 18 15 0 0)
     = true
  /\ OFFSET 14400 18000 1 = 14400.
Proof. repeat apply conj; vm_compute; reflexivity. Qed.




(** ** The renderers on the repository's expected outputs *)

Example stats_to_markdown_expected_output :
  generate_output (mkContributions 1 1 1 1 ∅)
    [mkPullRequest "mock" 12 12 12 "sometime" 1 "https://mock"] true
  = "
**Daily GitHub Summary**:

| Contribution | Count | Metric | Total |
| -- | -- | -- | -- |
| Reviews | 1 | Files Changed | 12 |
| Issues | 1 | Additions | 12 |
| Commits | 1 | Deletions | 12 |
| Pull Requests | 1 | | |

**Pull Request Breakdown**:

| Repo | Addition | Deletion | Files | Number |
| -- | -- | -- | -- | -- |
| mock | 12 | 12 | 12 | [see: #1](https://mock) |".
Proof. vm_compute. reflexivity. Qed.

Example stats_to_text_expected_output :
  generate_output (mkContributions 1 1 1 1 ∅)
    [mkPullRequest "mock" 12 12 12 "sometime" 1 "https://mock"] false
  = "
Daily GitHub Summary:
|    Contribution    | Count |    Metric     | Total |
------------------------------------------------------
| Reviews            |   1   | Files Changed |  12   |
| Issue              |   1   | Additions     |  12   |
| Commits            |   1   | Deletions     |  12   |
| Pull Requests      |   1   |               |       |

Pull Request Breakdown:

| Addition | Deletion | Files | Number | Url
----------------------------------------
|    12    |    12    |  12   |   1    | https://mock".
Proof. vm_compute. reflexivity. Qed.

Example HTTPClient_cleans_url_and_splits_on_init :
  HTTPClient_init (Some "mock") "https://example.com/foobar/baz"
  = mk_HTTPClient "mock" "example.com" "foobar/baz"
  /\ HTTPClient_init (Some "mock") "https://example.com"
     = mk_HTTPClient "mock" "example.com" "".
Proof. split; vm_compute; reflexivity. Qed.

(** ** Pull Request Fetcher: what a page adds and when the loop stops *)

Section PageLemmas.

Variable fromisoformat : string -> option datetime.
Variables (author reponame : string) (start_dt end_dt : datetime).

Lemma process_node_collects (node : Node) (more more' : bool)
    (prs prs' : list PullRequest) :
  process_node fromisoformat author reponame start_dt end_dt node more prs
  = Ok (more', prs') ->
  prs' = (prs ++ if selected fromisoformat author start_dt end_dt node
                 then [record_of reponame node] else [])%list.
Proof.
  unfold process_node, selected.
  destruct (fromisoformat _) as [t|]; [|discriminate].
  destruct (String.eqb _ _); cbn [negb andb].
  - destruct (dt_gt end_dt t && dt_gt t start_dt); cbn [negb];
      intros [= <- <-]; [reflexivity | now rewrite app_nil_r].
  - intros [= <- <-]. now rewrite app_nil_r.
Qed.

End PageLemmas.

(** X1. A page appends to [prs], in the server's order, one record for every
    node that is by the author and strictly inside the window, and nothing
    else; each record carries the queried repository name and the node's
    numbers, timestamp text and URL. *)
Theorem page_records_in_server_order
    (fromisoformat : string -> option datetime) (author reponame : string)
    (start_dt end_dt : datetime) (nodes : list Node) (more more' : bool)
    (prs prs' : list PullRequest) :
  process_nodes fromisoformat author reponame start_dt end_dt nodes more prs
  = Ok (more', prs') ->
  prs' = (prs ++ map (record_of reponame)
                   (List.filter (selected fromisoformat author start_dt end_dt)
                      nodes))%list.
Proof.
  revert more prs. induction nodes as [|node nodes IH]; intros more prs.
  - cbn. intros [= <- <-]. now rewrite app_nil_r.
  - cbn [process_nodes List.filter].
    destruct (process_node _ _ _ _ _ node more prs) as [[more1 prs1]|e|]
      eqn:Hnode; cbn [rbind]; try discriminate.
    intros Hrest. apply IH in Hrest. apply process_node_collects in Hnode.
    subst prs' prs1.
    destruct (selected _ _ _ _ node); cbn [map];
      rewrite <- app_assoc; reflexivity.
Qed.

Lemma page_records_in_server_order_witness :
  process_nodes fromisoformat_seconds "preocts" "daystats" day_start day_end
    (nodes page_bounds) false [sample_record "2023-09-01T10:00:00Z" 10]
  = Ok (false,
        [sample_record "2023-09-01T10:00:00Z" 10;
         sample_record "2023-09-01T04:51:04Z" 8])
  /\ [sample_record "2023-09-01T10:00:00Z" 10;
      sample_record "2023-09-01T04:51:04Z" 8]
     = ([sample_record "2023-09-01T10:00:00Z" 10]
        ++ map (record_of "daystats")
             (List.filter
                (selected fromisoformat_seconds "preocts" day_start day_end)
                (nodes page_bounds)))%list.
Proof.
  split; [reflexivity|].
  apply (page_records_in_server_order fromisoformat_seconds "preocts"
           "daystats" day_start day_end (nodes page_bounds) false false).
  reflexivity.
Defined.

(** X2. After a page, [more] holds the value assigned by the last node of the
    author that lay outside the window, namely whether that node is newer
    than [start_dt]; the server's [hasNextPage] survives only when no node
    of the page made such an assignment. *)
Theorem more_after_page
    (fromisoformat : string -> option datetime) (author reponame : string)
    (start_dt end_dt : datetime) (rjson : PullsJson) (more' : bool)
    (prs prs' : list PullRequest) :
  process_nodes fromisoformat author reponame start_dt end_dt (nodes rjson)
    (hasNextPage rjson) prs = Ok (more', prs') ->
  more' = match last_signal fromisoformat author start_dt end_dt
                  (nodes rjson) with
          | Some newer_than_start => newer_than_start
          | None => hasNextPage rjson
          end.
Proof.
  intros Hpage.
  apply (process_nodes_signal fromisoformat author reponame start_dt end_dt)
    in Hpage.
  now destruct (last_signal _ _ _ _ _).
Qed.

Lemma more_after_page_witness :
  process_nodes fromisoformat_seconds "preocts" "daystats" day_start day_end
    (nodes page_bounds) (hasNextPage page_bounds) []
  = Ok (false, [sample_record "2023-09-01T04:51:04Z" 8])
  /\ false
     = match last_signal fromisoformat_seconds "preocts" day_start day_end
               (nodes page_bounds) with
       | Some newer_than_start => newer_than_start
       | None => hasNextPage page_bounds
       end.
Proof.
  split; [reflexivity|].
  apply (more_after_page fromisoformat_seconds "preocts" "daystats" day_start
           day_end page_bounds false []
           [sample_record "2023-09-01T04:51:04Z" 8]).
  reflexivity.
Defined.

(** X3. The loop ends on the first page after which [more] is false, and
    then returns exactly what it has collected: with [n] turns that went
    round and a page that leaves [more] false and the list [prs'], any fuel
    above [n] gives [Ok prs'] in the world right after that page. *)
Theorem fetch_returns_what_it_collected {World : Type}
    (post : Query -> World -> Response * World)
    (fromisoformat : string -> option datetime)
    (author repoowner reponame : string) (start_dt end_dt : datetime)
    (n fuel : nat) (w0 w w' : World) (cursor : option string)
    (prs prs' : list PullRequest) (rjson : PullsJson) :
  nsteps (page_step post fromisoformat author repoowner reponame start_dt
            end_dt) n (w0, None, []) (w, cursor, prs) ->
  post (_create_pull_request_query repoowner reponame cursor) w
  = (PullsResponse rjson, w') ->
  process_nodes fromisoformat author reponame start_dt end_dt (nodes rjson)
    (hasNextPage rjson) prs = Ok (false, prs') ->
  (n < fuel)%nat ->
  _fetch_pull_requests post fromisoformat fuel author repoowner reponame
    start_dt end_dt w0 = (Ok prs', w').
Proof.
  intros Hsteps Hpost Hpage Hfuel. unfold _fetch_pull_requests.
  replace fuel with (n + S (fuel - S n))%nat by lia.
  rewrite (fetch_pages_nsteps post fromisoformat author repoowner reponame
             start_dt end_dt n _ _ _ Hsteps).
  cbn [fst snd]. now rewrite fetch_pages_S, Hpost, Hpage.
Qed.

Lemma fetch_returns_what_it_collected_witness :
  _fetch_pull_requests scripted_post fromisoformat_seconds 3 "preocts"
    "preocts" "daystats" day_start day_end
    ([PullsResponse page_of_the_day; PullsResponse page_bounds], [])
  = (Ok [sample_record "2023-09-01T04:51:04Z" 5;
         sample_record "2023-09-01T04:51:04Z" 8],
     ([], [PullRequestQuery "preocts" "daystats" None;
           PullRequestQuery "preocts" "daystats" (Some "Y3Vyc29yOjE=")])).
Proof.
  eapply (fetch_returns_what_it_collected scripted_post fromisoformat_seconds
            "preocts" "preocts" "daystats" day_start day_end 1 3
            ([PullsResponse page_of_the_day; PullsResponse page_bounds], [])
            ([PullsResponse page_bounds],
             [PullRequestQuery "preocts" "daystats" None])
            _ (Some "Y3Vyc29yOjE=")
            [sample_record "2023-09-01T04:51:04Z" 5] _ page_bounds).
  - eapply nsteps_l; [|apply nsteps_O].
    apply (page_step_more scripted_post fromisoformat_seconds "preocts"
             "preocts" "daystats" day_start day_end _ _ None [] _
             page_of_the_day); reflexivity.
  - reflexivity.
  - reflexivity.
  - lia.
Defined.

(** X4. Against a scripted server the call consumes the responses in order,
    one request each, at most [fuel] of them and at least one; every request
    names the queried repository, the first carries no cursor and each later
    one the [endCursor] of the response before it. *)
Theorem requests_follow_the_cursor
    (fromisoformat : string -> option datetime) (fuel : nat)
    (author repoowner reponame : string) (start_dt end_dt : datetime)
    (script : list Response) (log : list Query) :
  exists k : nat,
    (k <= fuel)%nat /\ (fuel = 0%nat \/ (1 <= k)%nat)
    /\ (_fetch_pull_requests scripted_post fromisoformat fuel author repoowner
          reponame start_dt end_dt (script, log)).2
       = (drop k script,
          (log ++ map (PullRequestQuery repoowner reponame)
                    (take k (None :: map cursor_of script)))%list).
Proof.
  unfold _fetch_pull_requests. generalize (@None string) as cursor.
  generalize (@nil PullRequest) as prs.
  revert script log. induction fuel as [|fuel IH]; intros script log prs cursor.
  - exists 0%nat. cbn. rewrite app_nil_r. repeat split; [lia | now left].
  - rewrite fetch_pages_S. unfold scripted_post at 1. cbn [fst snd].
    assert (Hone : forall rest : list Response,
               (drop 1 script = rest) ->
               exists k : nat,
                 (k <= S fuel)%nat /\ (S fuel = 0%nat \/ (1 <= k)%nat)
                 /\ (rest, (log ++ [_create_pull_request_query repoowner
                                       reponame cursor])%list)
                    = (drop k script,
                       (log
                        ++ map (PullRequestQuery repoowner reponame)
                             (take k (cursor :: map cursor_of script)))%list)).
    { intros rest <-. exists 1%nat. repeat split; [lia | right; lia]. }
    destruct script as [|resp_json rest].
    + apply (Hone []). reflexivity.
    + destruct resp_json as [err|c|rjson]; try (apply (Hone rest); reflexivity).
      destruct (process_nodes _ _ _ _ _ _ _ _) as [[[] prs1]|e|];
        try (apply (Hone rest); reflexivity).
      destruct (IH rest (log ++ [_create_pull_request_query repoowner reponame
                                   cursor])%list prs1 (endCursor rjson))
        as (k & Hle & _ & Hrun).
      exists (S k). repeat split; [lia | right; lia |].
      rewrite Hrun. cbn [drop take map cursor_of].
      now rewrite <- app_assoc.
Qed.

(** ** Orchestrator: soft failure and the shifted window, end to end *)

Lemma fetch_each_in_window {World : Type}
    (post : Query -> World -> Response * World)
    (fromisoformat : string -> option datetime) (fuel : nat)
    (loginname : string) (start_utc end_utc : datetime) (repos : list Repo)
    (w w' : World) (results : list (list PullRequest)) :
  fetch_each post fromisoformat fuel loginname start_utc end_utc repos w
    results w' ->
  Forall (in_window fromisoformat start_utc end_utc) (concat results).
Proof.
  induction 1 as [w|repo repos w w1 w2 prs rest Hfetch _ IH]; cbn [concat].
  - constructor.
  - apply Forall_app. split; [|exact IH].
    eapply (fetch_pages_in_window post fromisoformat); [|exact Hfetch].
    constructor.
Qed.

(** X5. When the contributions response has no ["data"] key, [get_stats]
    still returns: the summary is all zero, the list of pull requests is
    empty, and the contributions query is the only request sent (an empty
    set is iterated zero times, so no window is shifted either). *)
Theorem get_stats_soft_fails_to_zero {World : Type}
    (post : Query -> World -> Response * World)
    (fromisoformat : string -> option datetime)
    (set_iter : gset Repo -> list Repo) (altzone timezone daylight : Z)
    (fuel : nat) (now : datetime) (loginname : string)
    (year month day : option Z) (start_dt end_dt : datetime) (w : World) :
  set_iter ∅ = [] ->
  _build_bookend_times now year month day = Ok (start_dt, end_dt) ->
  has_data
    (post (_create_contrib_query loginname (isoformat start_dt +:+ "Z")
             (isoformat end_dt +:+ "Z")) w).1 = false ->
  get_stats post fromisoformat set_iter altzone timezone daylight fuel now
    loginname year month day w
  = (Ok (mkContributions 0 0 0 0 ∅, []),
     (post (_create_contrib_query loginname (isoformat start_dt +:+ "Z")
              (isoformat end_dt +:+ "Z")) w).2).
Proof.
  intros Hempty Hbuild Hdata.
  rewrite (get_stats_build_ok _ _ _ _ _ _ _ _ _ _ _ _ _ _ _ Hbuild).
  unfold _fetch_contributions, mbind, client_post, mret.
  destruct (post _ w) as [[err|c|rjson] w1]; cbn in Hdata; try discriminate.
  cbn [pr_repos fst snd]. rewrite Hempty. reflexivity.
Qed.

Lemma get_stats_soft_fails_to_zero_witness :
  get_stats scripted_post fromisoformat_seconds elements_order (-3600)
    (-3600) 0 5 (mkdatetime 2023 9 1 12 23 0 0) "preocts"
    (Some 1) (Some 1) (Some 1) ([ErrorResponse "json machine broken"], [])
  = (Ok (mkContributions 0 0 0 0 ∅, []),
     (scripted_post
        (_create_contrib_query "preocts"
           (isoformat (mkdatetime 1 1 1 0 0 0 0) +:+ "Z")
           (isoformat (mkdatetime 1 1 1 23 59 59 0) +:+ "Z"))
        ([ErrorResponse "json machine broken"], [])).2).
Proof.
  apply (get_stats_soft_fails_to_zero scripted_post fromisoformat_seconds
           elements_order (-3600) (-3600) 0 5 (mkdatetime 2023 9 1 12 23 0 0)
           "preocts" (Some 1) (Some 1) (Some 1)); reflexivity.
Defined.

(** X6. Every pull request [get_stats] returns was created strictly inside
    the shifted window: when the list is not empty, both bounds of the Window
    Builder's day plus [UTC_OFFSET] exist and every record's timestamp parses
    to a time strictly between them. *)
Theorem get_stats_records_in_shifted_window {World : Type}
    (post : Query -> World -> Response * World)
    (fromisoformat : string -> option datetime)
    (set_iter : gset Repo -> list Repo) (altzone timezone daylight : Z)
    (fuel : nat) (now : datetime) (loginname : string)
    (year month day : option Z) (w w' : World) (contribs : Contributions)
    (pull_requests : list PullRequest) :
  get_stats post fromisoformat set_iter altzone timezone daylight fuel now
    loginname year month day w = (Ok (contribs, pull_requests), w') ->
  exists start_dt end_dt : datetime,
    _build_bookend_times now year month day = Ok (start_dt, end_dt)
    /\ (pull_requests = []
        \/ exists start_utc end_utc : datetime,
            datetime_add start_dt (UTC_OFFSET altzone timezone daylight)
            = Ok start_utc
            /\ datetime_add end_dt (UTC_OFFSET altzone timezone daylight)
               = Ok end_utc
            /\ Forall (fun pr =>
                         exists t : datetime,
                           fromisoformat (rstrip_Z (created_at pr)) = Some t
                           /\ dt_gt t start_utc = true
                           /\ dt_gt end_utc t = true) pull_requests).
Proof.
  intros Hrun.
  destruct (_build_bookend_times now year month day)
    as [[start_dt end_dt]|e|] eqn:Hbuild.
  - exists start_dt, end_dt. split; [reflexivity|].
    rewrite (get_stats_build_ok _ _ _ _ _ _ _ _ _ _ _ _ _ _ _ Hbuild) in Hrun.
    destruct (_fetch_contributions _ _ _ _ w) as [[c|e|] w1];
      try discriminate.
    destruct (fetch_repos _ _ _ _ _ _ _ _ _ _ _ w1) as [[prs|e|] w2]
      eqn:Hrepos; try discriminate.
    injection Hrun as -> -> ->.
    apply fetch_repos_inv in Hrepos
      as [(_ & -> & _) | (su & eu & results & Hs & He & Heach & ->)];
      [now left|].
    right. exists su, eu. repeat split; try assumption.
    apply fetch_each_in_window in Heach. cbn [app].
    eapply Forall_impl; [exact Heach|].
    intros pr (t & Hparse & Hstart & Hend & _). now exists t.
  - rewrite (get_stats_build_raise _ _ _ _ _ _ _ _ _ _ _ _ _ _ Hbuild)
      in Hrun.
    discriminate.
  - unfold get_stats, mbind, lift in Hrun. rewrite Hbuild in Hrun.
    discriminate.
Qed.

Lemma get_stats_records_in_shifted_window_witness :
  exists start_dt end_dt : datetime,
    _build_bookend_times (mkdatetime 2023 9 1 12 23 0 0) None None None
    = Ok (start_dt, end_dt)
    /\ ([sample_record "2023-09-01T04:51:04Z" 5] = []
        \/ exists start_utc end_utc : datetime,
            datetime_add start_dt (UTC_OFFSET 14400 18000 1) = Ok start_utc
            /\ datetime_add end_dt (UTC_OFFSET 14400 18000 1) = Ok end_utc
            /\ Forall (fun pr =>
                         exists t : datetime,
                           fromisoformat_seconds (rstrip_Z (created_at pr))
                           = Some t
                           /\ dt_gt t start_utc = true
                           /\ dt_gt end_utc t = true)
                 [sample_record "2023-09-01T04:51:04Z" 5]).
Proof.
  apply (get_stats_records_in_shifted_window scripted_post
           fromisoformat_seconds elements_order 14400 18000 1 5
           (mkdatetime 2023 9 1 12 23 0 0) "preocts" None None None
           ([ContribResponse contribs_once; PullsResponse page_of_the_day;
             PullsResponse page_empty], [])
           ([], [ContribQuery "preocts" "2023-09-01T00:00:00Z"
                   "2023-09-01T23:59:59Z";
                 PullRequestQuery "Preocts" "daystats" None;
                 PullRequestQuery "Preocts" "daystats" (Some "Y3Vyc29yOjE=")])
           (mkContributions 5 1 2 0 {[ mkRepo "Preocts" "daystats" ]})).
  vm_compute. reflexivity.
Defined.

(** ** Window Builder: when it succeeds *)

Lemma days_in_month_ge_28 (year month : Z) :
  1 <= month <= 12 -> 28 <= _days_in_month year month.
Proof.
  intros Hm. unfold _days_in_month.
  assert (Hcases : month = 1 \/ month = 2 \/ month = 3 \/ month = 4
                   \/ month = 5 \/ month = 6 \/ month = 7 \/ month = 8
                   \/ month = 9 \/ month = 10 \/ month = 11 \/ month = 12)
    by lia.
  repeat (destruct Hcases as [-> | Hcases];
          [cbn; try destruct (_is_leap _); cbn; lia|]).
  subst. cbn. lia.
Qed.

Lemma days_in_month_le_31 (year month : Z) :
  1 <= month <= 12 -> _days_in_month year month <= 31.
Proof.
  intros Hm. unfold _days_in_month.
  assert (Hcases : month = 1 \/ month = 2 \/ month = 3 \/ month = 4
                   \/ month = 5 \/ month = 6 \/ month = 7 \/ month = 8
                   \/ month = 9 \/ month = 10 \/ month = 11 \/ month = 12)
    by lia.
  repeat (destruct Hcases as [-> | Hcases];
          [cbn; try destruct (_is_leap _); cbn; lia|]).
  subst. cbn. lia.
Qed.

Lemma valid_date_bounds (year month day : Z) :
  valid_date year month day = true ->
  (MINYEAR <= year <= MAXYEAR) /\ (1 <= month <= 12)
  /\ (1 <= day <= _days_in_month year month).
Proof.
  unfold valid_date. rewrite !andb_true_iff, !Z.leb_le. tauto.
Qed.

Lemma valid_date_of_bounds (year month day : Z) :
  MINYEAR <= year <= MAXYEAR -> 1 <= month <= 12 ->
  1 <= day <= _days_in_month year month ->
  valid_date year month day = true.
Proof.
  intros Hy Hm Hd. unfold valid_date.
  rewrite !andb_true_iff, !Z.leb_le. tauto.
Qed.

(** X7. With a valid clock reading the Window Builder has a closed form.
    The year, the month and the day are overridden in this order, a field
    that is [None] or 0 keeping today's value; a given field that does not
    fit a C [int] raises [OverflowError], a date that is not valid right
    after an override raises [ValueError], the first failure deciding; and
    when nothing fails the result is the day from 00:00:00 to 23:59:59 of
    the overridden date. *)
Theorem bookend_times_closed_form (now : datetime)
    (year month day : option Z) :
  valid_datetime now = true ->
  _build_bookend_times now year month day
  = if overflows year then Raise OverflowError
    else if negb (valid_date (override year (dt_year now)) (dt_month now)
                    (dt_day now))
    then Raise ValueError
    else if overflows month then Raise OverflowError
    else if negb (valid_date (override year (dt_year now))
                    (override month (dt_month now)) (dt_day now))
    then Raise ValueError
    else if overflows day then Raise OverflowError
    else if negb (valid_date (override year (dt_year now))
                    (override month (dt_month now))
                    (override day (dt_day now)))
    then Raise ValueError
    else Ok (mkdatetime (override year (dt_year now))
               (override month (dt_month now)) (override day (dt_day now))
               0 0 0 0,
             mkdatetime (override year (dt_year now))
               (override month (dt_month now)) (override day (dt_day now))
               23 59 59 0).
Proof. intros Hnow. now rewrite build_bookend_times_unfold. Qed.

Lemma bookend_times_closed_form_witness :
  valid_datetime (mkdatetime 2023 1 31 12 23 0 0) = true
  /\ _build_bookend_times (mkdatetime 2023 1 31 12 23 0 0)
       (Some 2024) None (Some 15)
     = Ok (mkdatetime 2024 1 15 0 0 0 0, mkdatetime 2024 1 15 23 59 59 0)
  /\ _build_bookend_times (mkdatetime 2023 1 31 12 23 0 0)
       (Some 2024) (Some 2147483648) (Some 15) = Raise OverflowError
  /\ _build_bookend_times (mkdatetime 2023 1 31 12 23 0 0)
       (Some (-1)) (Some 2147483648) (Some 15) = Raise ValueError.
Proof.
  split; [reflexivity|].
  rewrite !bookend_times_closed_form by reflexivity.
  repeat apply conj; reflexivity.
Defined.

(** X8. Run on one of the first 28 days of a month, the Window Builder
    returns the window of every existing date it is asked for: the dates
    passed through on the way keep today's day, which every month has. *)
Theorem bookend_times_succeeds_before_day_29 (now : datetime)
    (year month day : option Z) :
  valid_datetime now = true ->
  dt_day now <= 28 ->
  valid_date (override year (dt_year now)) (override month (dt_month now))
    (override day (dt_day now)) = true ->
  _build_bookend_times now year month day
  = Ok (mkdatetime (override year (dt_year now))
          (override month (dt_month now)) (override day (dt_day now)) 0 0 0 0,
        mkdatetime (override year (dt_year now))
          (override month (dt_month now)) (override day (dt_day now))
          23 59 59 0).
Proof.
  intros Hnow Hday Hvalid.
  rewrite build_bookend_times_unfold by exact Hnow. cbn zeta.
  assert (Hdate : valid_date (dt_year now) (dt_month now) (dt_day now) = true).
  { unfold valid_datetime in Hnow. now apply andb_true_iff in Hnow. }
  apply valid_date_bounds in Hdate as (_ & Hm & Hd).
  pose proof Hvalid as Hfinal.
  apply valid_date_bounds in Hfinal as (HY & HMo & HD).
  pose proof (days_in_month_le_31 (override year (dt_year now)) _ HMo)
    as Hlen.
  unfold MINYEAR, MAXYEAR in HY.
  rewrite (overflows_of_fit year (dt_year now))
    by (unfold INT_MIN, INT_MAX; lia).
  rewrite (overflows_of_fit month (dt_month now))
    by (unfold INT_MIN, INT_MAX; lia).
  rewrite (overflows_of_fit day (dt_day now))
    by (unfold INT_MIN, INT_MAX; lia).
  rewrite Hvalid.
  rewrite !valid_date_of_bounds; try (unfold MINYEAR, MAXYEAR; lia);
    try assumption; try reflexivity.
  - split; [lia|].
    pose proof (days_in_month_ge_28 (override year (dt_year now)) _ HMo). lia.
  - split; [lia|].
    pose proof (days_in_month_ge_28 (override year (dt_year now)) _ Hm). lia.
Qed.

Lemma bookend_times_succeeds_before_day_29_witness :
  valid_datetime (mkdatetime 2024 2 28 12 23 0 0) = true
  /\ 28 <= 28
  /\ valid_date 2023 2 15 = true
  /\ _build_bookend_times (mkdatetime 2024 2 28 12 23 0 0)
       (Some 2023) None (Some 15)
     = Ok (mkdatetime (override (Some 2023) 2024) (override None 2)
             (override (Some 15) 28) 0 0 0 0,
           mkdatetime (override (Some 2023) 2024) (override None 2)
             (override (Some 15) 28) 23 59 59 0).
Proof.
  split; [reflexivity|]. split; [lia|]. split; [reflexivity|].
  apply (bookend_times_succeeds_before_day_29
           (mkdatetime 2024 2 28 12 23 0 0) (Some 2023) None (Some 15));
    [reflexivity | cbn; lia | reflexivity].
Defined.

(** ** The offset *)

(** X9. [UTC_OFFSET] is [OFFSET] rounded down to whole hours: it holds no
    microseconds, its seconds lie within a day, and its length in seconds is
    the multiple of 3600 at or just below [OFFSET]; the two agree only when
    the machine's offset is a whole number of hours. *)
Theorem utc_offset_is_whole_hours (altzone timezone daylight : Z) :
  let offset := OFFSET altzone timezone daylight in
  let delta := UTC_OFFSET altzone timezone daylight in
  td_microseconds delta = 0
  /\ 0 <= td_seconds delta < 86400
  /\ td_days delta * 86400 + td_seconds delta = 3600 * (offset / 3600)
  /\ 3600 * (offset / 3600) <= offset < 3600 * (offset / 3600) + 3600
  /\ (td_days delta * 86400 + td_seconds delta = offset
      <-> offset mod 3600 = 0).
Proof.
  intros offset delta. unfold delta, UTC_OFFSET, timedelta_hours, td_normalize.
  fold offset. cbn [td_days td_seconds td_microseconds].
  rewrite Z.div_div by lia. change (60 * 60) with 3600.
  change (0 / 1000000) with 0. change (0 mod 1000000) with 0.
  rewrite Z.add_0_r, Z.add_0_l.
  set (h := offset / 3600).
  pose proof (Z.div_mod (h * 3600) 86400 ltac:(lia)) as Hday.
  pose proof (Z.mod_pos_bound (h * 3600) 86400 ltac:(lia)) as Hsec.
  pose proof (Z.div_mod offset 3600 ltac:(lia)) as Hhour.
  pose proof (Z.mod_pos_bound offset 3600 ltac:(lia)) as Hrem.
  fold h in Hhour.
  repeat split; try lia.
Qed.

(** ** [_HTTPClient.__init__] *)

Lemma lower_char_idem (c : ascii) : lower_char (lower_char c) = lower_char c.
Proof.
  destruct c as [[] [] [] [] [] [] [] []]; vm_compute; reflexivity.
Qed.

Lemma lower_idem (s : string) : lower (lower s) = lower s.
Proof.
  induction s as [|c s IH]; cbn; [reflexivity|].
  now rewrite lower_char_idem, IH.
Qed.

Lemma lower_cons_inv (c : ascii) (s : string) :
  lower (String c s) = String c s -> lower_char c = c /\ lower s = s.
Proof. cbn. intros [= Hc Hs]. now split. Qed.

Lemma remove_from_lower (old : string) (skip : nat) (s : string) :
  lower s = s -> lower (remove_from old skip s) = remove_from old skip s.
Proof.
  revert skip. induction s as [|c s IH]; intros skip Hs; [reflexivity|].
  apply lower_cons_inv in Hs as [Hc Hs]. cbn [remove_from].
  destruct skip as [|k]; [|now apply IH].
  destruct (String.prefix old (String c s)); [now apply IH|].
  cbn. now rewrite Hc, IH.
Qed.

Lemma split_once_lower (sep : ascii) (s : string) :
  lower s = s ->
  lower (split_once sep s).1 = (split_once sep s).1
  /\ lower (default "" (split_once sep s).2) = default "" (split_once sep s).2.
Proof.
  induction s as [|c s IH]; intros Hs; [now split|].
  apply lower_cons_inv in Hs as [Hc Hs]. cbn [split_once].
  destruct (Ascii.eqb c sep); [now split|].
  destruct (IH Hs) as [Hbefore Hafter].
  destruct (split_once sep s) as [before after]. cbn in *.
  now rewrite Hc, Hbefore.
Qed.

Lemma split_once_spec (sep : ascii) (s : string) :
  has_char sep (split_once sep s).1 = false
  /\ match (split_once sep s).2 with
     | Some after =>
         has_char sep s = true
         /\ s = (split_once sep s).1 +:+ String sep after
     | None => has_char sep s = false /\ s = (split_once sep s).1
     end.
Proof.
  induction s as [|c s IH]; [now split|].
  cbn [split_once has_char]. rewrite (Ascii.eqb_sym sep c).
  destruct (Ascii.eqb c sep) eqn:Hc.
  - apply Ascii.eqb_eq in Hc as ->. now split.
  - destruct IH as [Hbefore Hafter].
    destruct (split_once sep s) as [before [after|]]; cbn in *.
    + rewrite (Ascii.eqb_sym sep c), Hc. cbn.
      split; [exact Hbefore|]. destruct Hafter as [Hin ->]. now split.
    + rewrite (Ascii.eqb_sym sep c), Hc. cbn.
      split; [exact Hbefore|]. destruct Hafter as [Hin <-]. now split.
Qed.

(** X10. The client is built from the cleaned URL cut at its first ["/"]:
    the host holds no ["/"]; when the cleaned URL has one, host, ["/"] and
    path put together give the cleaned URL back, and otherwise the host is
    the whole of it and the path is empty. *)
Theorem client_splits_url_at_first_slash (token : option string)
    (url : string) :
  let client := HTTPClient_init token url in
  has_char "/" (_host client) = false
  /\ (if has_char "/" (clean_url url)
      then clean_url url = _host client +:+ "/" +:+ _path client
      else clean_url url = _host client /\ _path client = "").
Proof.
  cbn zeta. unfold HTTPClient_init. cbn [_host _path].
  destruct (split_once_spec "/" (clean_url url)) as [Hhost Hrest].
  split; [exact Hhost|].
  destruct (split_once "/" (clean_url url)) as [before [after|]]; cbn in *.
  - destruct Hrest as [-> Hurl]. exact Hurl.
  - destruct Hrest as [-> Hurl]. now split.
Qed.

(** X11. The whole URL is lower-cased before anything else, so the scheme is
    recognised in any letter case and the client keeps a lower-case host and
    a lower-case path; a token that is [None] is kept as the empty string. *)
Theorem client_host_and_path_are_lower_case (token : option string)
    (url : string) :
  let client := HTTPClient_init token url in
  lower (_host client) = _host client
  /\ lower (_path client) = _path client
  /\ clean_url (lower url) = clean_url url
  /\ (token = None -> _token client = "").
Proof.
  cbn zeta. unfold HTTPClient_init. cbn [_host _path _token].
  assert (Hclean : lower (clean_url url) = clean_url url).
  { unfold clean_url, str_remove.
    apply remove_from_lower, remove_from_lower, lower_idem. }
  destruct (split_once_lower "/" (clean_url url) Hclean) as [Hhost Hpath].
  repeat split; try assumption.
  - unfold clean_url. now rewrite lower_idem.
  - now intros ->.
Qed.

Lemma client_host_and_path_are_lower_case_witness :
  lower (_host (HTTPClient_init None "HTTPS://API.GitHub.com/GraphQL"))
  = _host (HTTPClient_init None "HTTPS://API.GitHub.com/GraphQL")
  /\ HTTPClient_init None "HTTPS://API.GitHub.com/GraphQL"
     = mk_HTTPClient "" "api.github.com" "graphql".
Proof.
  destruct (client_host_and_path_are_lower_case None
              "HTTPS://API.GitHub.com/GraphQL") as (Hhost & _).
  split; [exact Hhost | reflexivity].
Defined.

(** ** The renderers *)

Lemma count_nl_app (a b : string) :
  count_nl (a +:+ b) = (count_nl a + count_nl b)%nat.
Proof.
  induction a as [|c a IH]; [reflexivity|].
  change (count_nl (String c (a +:+ b))
          = (count_nl (String c a) + count_nl b)%nat).
  cbn [count_nl]. rewrite IH. lia.
Qed.

Lemma count_nl_spaces (n : nat) : count_nl (repeat_char " " n) = 0%nat.
Proof. induction n as [|n IH]; cbn; [reflexivity | exact IH]. Qed.

Lemma count_nl_dashes (n : nat) : count_nl (repeat_char "-" n) = 0%nat.
Proof. induction n as [|n IH]; cbn; [reflexivity | exact IH]. Qed.

Lemma count_nl_center (width : nat) (s : string) :
  count_nl (center width s) = count_nl s.
Proof. unfold center. rewrite !count_nl_app, !count_nl_spaces. lia. Qed.

Lemma count_nl_ljust (width : nat) (s : string) :
  count_nl (ljust width s) = count_nl s.
Proof. unfold ljust. rewrite count_nl_app, count_nl_spaces. lia. Qed.

Lemma count_nl_digits (d : Decimal.uint) :
  count_nl (NilEmpty.string_of_uint d) = 0%nat.
Proof. induction d; cbn; [reflexivity | assumption ..]. Qed.

Lemma count_nl_str_of_int (n : Z) : count_nl (str_of_int n) = 0%nat.
Proof.
  unfold str_of_int, NilZero.string_of_int, NilZero.string_of_uint.
  destruct (Z.to_int n) as [d|d]; destruct d; cbn;
    try reflexivity; apply count_nl_digits.
Qed.

Lemma count_nl_join_lines (rows : list string) :
  count_nl (join_lines rows)
  = (list_sum (map count_nl rows) + (length rows - 1))%nat.
Proof.
  induction rows as [|row rows IH]; [reflexivity|].
  destruct rows as [|row' rows].
  - cbn. lia.
  - change (join_lines (row :: row' :: rows))
      with (row +:+ nl +:+ join_lines (row' :: rows)).
    rewrite !count_nl_app, IH. change (count_nl nl) with 1%nat.
    unfold list_sum. cbn [map fold_right Datatypes.length]. lia.
Qed.

Lemma count_nl_markdown_rows (pull_requests : list PullRequest) :
  Forall (fun pr => count_nl (reponame pr) = 0%nat
                    /\ count_nl (url pr) = 0%nat) pull_requests ->
  list_sum (map count_nl (map markdown_row pull_requests)) = 0%nat.
Proof.
  induction 1 as [|pr prs [Hname Hurl] _ IH]; [reflexivity|].
  unfold list_sum in *. cbn [map fold_right]. rewrite IH. unfold markdown_row.
  rewrite ?count_nl_app, ?count_nl_center, ?count_nl_ljust,
    ?count_nl_str_of_int, ?count_nl_dashes, ?count_nl_spaces.
  rewrite Hname, Hurl. reflexivity.
Qed.

Lemma count_nl_text_rows (pull_requests : list PullRequest) :
  Forall (fun pr => count_nl (url pr) = 0%nat) pull_requests ->
  list_sum (map count_nl (map text_row pull_requests)) = 0%nat.
Proof.
  induction 1 as [|pr prs Hurl _ IH]; [reflexivity|].
  unfold list_sum in *. cbn [map fold_right]. rewrite IH. unfold text_row.
  rewrite ?count_nl_app, ?count_nl_center, ?count_nl_ljust,
    ?count_nl_str_of_int, ?count_nl_dashes, ?count_nl_spaces.
  rewrite Hurl. reflexivity.
Qed.

(** X12. Whatever the counters and totals, the report has a fixed number of
    header lines followed by one line per pull request: with no line feed in
    the URLs (and, for Markdown, in the repository names) the Markdown report
    has 14 lines plus one per pull request and the text report 13 plus one
    per pull request; that is 13, respectively 12, line feeds more than
    there are pull requests. *)
Theorem report_has_one_line_per_pull_request (contribs : Contributions)
    (pull_requests : list PullRequest) (markdown : bool) :
  Forall (fun pr => count_nl (url pr) = 0%nat
                    /\ (markdown = true -> count_nl (reponame pr) = 0%nat))
    pull_requests ->
  count_nl (generate_output contribs pull_requests markdown)
  = ((if markdown then 13 else 12) + length pull_requests)%nat.
Proof.
  intros Hclean. unfold generate_output. destruct markdown.
  - unfold _stats_to_markdown. cbn zeta.
    rewrite count_nl_join_lines, map_app, list_sum_app, length_app, length_map.
    rewrite count_nl_markdown_rows.
    + unfold list_sum. cbn [map fold_right Datatypes.length].
      rewrite ?count_nl_app, ?count_nl_center, ?count_nl_ljust,
        ?count_nl_str_of_int, ?count_nl_dashes, ?count_nl_spaces.
      repeat match goal with
             | |- context [count_nl ?s] =>
                 let n := eval vm_compute in (count_nl s) in
                 change (count_nl s) with n
             end.
      lia.
    + eapply Forall_impl; [exact Hclean|]. cbn. intros pr [Hurl Hname].
      split; [now apply Hname | exact Hurl].
  - unfold _stats_to_text. cbn zeta.
    rewrite count_nl_join_lines, map_app, list_sum_app, length_app, length_map.
    rewrite count_nl_text_rows.
    + unfold list_sum. cbn [map fold_right Datatypes.length].
      rewrite ?count_nl_app, ?count_nl_center, ?count_nl_ljust,
        ?count_nl_str_of_int, ?count_nl_dashes, ?count_nl_spaces.
      repeat match goal with
             | |- context [count_nl ?s] =>
                 let n := eval vm_compute in (count_nl s) in
                 change (count_nl s) with n
             end.
      lia.
    + eapply Forall_impl; [exact Hclean|]. cbn. now intros pr [Hurl _].
Qed.

Lemma report_has_one_line_per_pull_request_witness :
  Forall (fun pr => count_nl (url pr) = 0%nat
                    /\ (true = true -> count_nl (reponame pr) = 0%nat))
    [sample_record "2023-09-01T04:51:04Z" 5;
     sample_record "2023-09-01T04:51:04Z" 8]
  /\ count_nl
       (generate_output (mkContributions 5 1 2 0 ∅)
          [sample_record "2023-09-01T04:51:04Z" 5;
           sample_record "2023-09-01T04:51:04Z" 8] true)
     = ((if true then 13 else 12)
        + length [sample_record "2023-09-01T04:51:04Z" 5;
                  sample_record "2023-09-01T04:51:04Z" 8])%nat.
Proof.
  assert (Hclean :
    Forall (fun pr => count_nl (url pr) = 0%nat
                      /\ (true = true -> count_nl (reponame pr) = 0%nat))
      [sample_record "2023-09-01T04:51:04Z" 5;
       sample_record "2023-09-01T04:51:04Z" 8])
    by (repeat constructor).
  split; [exact Hclean|].
  apply (report_has_one_line_per_pull_request (mkContributions 5 1 2 0 ∅) _
           true Hclean).
Defined.

Lemma length_append (a b : string) :
  String.length (a +:+ b) = (String.length a + String.length b)%nat.
Proof.
  induction a as [|c a IH]; [reflexivity|].
  change (String.length (String c (a +:+ b))
          = (String.length (String c a) + String.length b)%nat).
  cbn [String.length]. now rewrite IH.
Qed.

Lemma length_repeat_char (c : ascii) (n : nat) :
  String.length (repeat_char c n) = n.
Proof. induction n as [|n IH]; cbn; [reflexivity | now rewrite IH]. Qed.

Lemma length_center (width : nat) (s : string) :
  String.length (center width s) = Nat.max width (String.length s).
Proof.
  unfold center. rewrite !length_append, !length_repeat_char.
  assert (((width - String.length s) / 2 <= width - String.length s)%nat)
    by (apply Nat.Div0.div_le_upper_bound; lia).
  lia.
Qed.

(** X13. A row of the text report never cuts a number: each of the four
    columns is as wide as its header (10, 10, 7 and 8) or as the number when
    that is longer. So a row whose four numbers fit their columns is 41
    characters and the URL, as wide up to the URL as the header row, and a
    number that does not fit pushes the rest of its row to the right. *)
Theorem text_row_width (pr : PullRequest) :
  String.length (text_row pr)
  = (6 + Nat.max 10 (String.length (str_of_int (additions pr)))
     + Nat.max 10 (String.length (str_of_int (deletions pr)))
     + Nat.max 7 (String.length (str_of_int (files pr)))
     + Nat.max 8 (String.length (str_of_int (number pr)))
     + String.length (url pr))%nat
  /\ ((String.length (str_of_int (additions pr)) <= 10)%nat ->
      (String.length (str_of_int (deletions pr)) <= 10)%nat ->
      (String.length (str_of_int (files pr)) <= 7)%nat ->
      (String.length (str_of_int (number pr)) <= 8)%nat ->
      String.length (text_row pr) = (41 + String.length (url pr))%nat).
Proof.
  assert (Hwidth :
    String.length (text_row pr)
    = (6 + Nat.max 10 (String.length (str_of_int (additions pr)))
       + Nat.max 10 (String.length (str_of_int (deletions pr)))
       + Nat.max 7 (String.length (str_of_int (files pr)))
       + Nat.max 8 (String.length (str_of_int (number pr)))
       + String.length (url pr))%nat).
  { unfold text_row. rewrite !length_append, !length_center. cbn. lia. }
  split; [exact Hwidth|]. intros Ha Hd Hf Hn. rewrite Hwidth. lia.
Qed.

Lemma text_row_width_witness :
  String.length (text_row (sample_record "2023-09-01T04:51:04Z" 5))
  = (41 + String.length (url (sample_record "2023-09-01T04:51:04Z" 5)))%nat
  /\ String.length
       (text_row (mkPullRequest "daystats" 12345678901 0 1 "sometime" 1 ""))
     = 42%nat.
Proof.
  destruct (text_row_width (sample_record "2023-09-01T04:51:04Z" 5))
    as [_ Hfit].
  destruct (text_row_width
              (mkPullRequest "daystats" 12345678901 0 1 "sometime" 1 ""))
    as [Hwide _].
  split; [apply Hfit; cbn; lia | rewrite Hwide; reflexivity].
Defined.

(** ** Orchestrator: the composition *)

(** X14. [get_stats] is a composition of its three parts. If the
    Window Builder gives [(start_dt, end_dt)], the contributions fetched with
    that very window are [contribs], both bounds shifted by [UTC_OFFSET] exist,
    and the repositories of [pr_repos contribs], taken in iteration order and
    each fetched with the shifted window from the world its predecessor left,
    give [results], then [get_stats] returns [contribs] with the
    concatenation of [results]. Conversely a result of [get_stats] always
    arises in this way (with nothing fetched when the set is empty). *)
Theorem get_stats_orchestration {World : Type}
    (post : Query -> World -> Response * World)
    (fromisoformat : string -> option datetime)
    (set_iter : gset Repo -> list Repo) (altzone timezone daylight : Z)
    (fuel : nat) (now : datetime) (loginname : string)
    (year month day : option Z) (w0 : World) :
  (forall (start_dt end_dt start_utc end_utc : datetime)
          (contribs : Contributions) (results : list (list PullRequest))
          (w1 w2 : World),
      _build_bookend_times now year month day = Ok (start_dt, end_dt) ->
      _fetch_contributions post loginname start_dt end_dt w0
      = (Ok contribs, w1) ->
      datetime_add start_dt (UTC_OFFSET altzone timezone daylight)
      = Ok start_utc ->
      datetime_add end_dt (UTC_OFFSET altzone timezone daylight)
      = Ok end_utc ->
      fetch_each post fromisoformat fuel loginname start_utc end_utc
        (set_iter (pr_repos contribs)) w1 results w2 ->
      get_stats post fromisoformat set_iter altzone timezone daylight fuel now
        loginname year month day w0
      = (Ok (contribs, concat results), w2))
  /\ (forall (contribs : Contributions) (pull_requests : list PullRequest)
             (w2 : World),
        get_stats post fromisoformat set_iter altzone timezone daylight fuel
          now loginname year month day w0
        = (Ok (contribs, pull_requests), w2) ->
        exists (start_dt end_dt : datetime) (w1 : World),
          _build_bookend_times now year month day = Ok (start_dt, end_dt)
          /\ _fetch_contributions post loginname start_dt end_dt w0
             = (Ok contribs, w1)
          /\ ((set_iter (pr_repos contribs) = [] /\ pull_requests = []
               /\ w2 = w1)
              \/ exists (start_utc end_utc : datetime)
                        (results : list (list PullRequest)),
                  datetime_add start_dt (UTC_OFFSET altzone timezone daylight)
                  = Ok start_utc
                  /\ datetime_add end_dt
                       (UTC_OFFSET altzone timezone daylight) = Ok end_utc
                  /\ fetch_each post fromisoformat fuel loginname start_utc
                       end_utc (set_iter (pr_repos contribs)) w1 results w2
                  /\ pull_requests = concat results)).
Proof.
  split.
  - intros start_dt end_dt start_utc end_utc contribs results w1 w2
      Hbuild Hcontribs Hs He Heach.
    rewrite (get_stats_build_ok _ _ _ _ _ _ _ _ _ _ _ _ _ _ _ Hbuild).
    rewrite Hcontribs.
    now rewrite (fetch_repos_each post fromisoformat altzone timezone daylight
                   fuel loginname _ _ _ _ _ [] _ _ _ Hs He Heach).
  - intros contribs pull_requests w2 Hrun.
    destruct (_build_bookend_times now year month day)
      as [[start_dt end_dt]|e|] eqn:Hbuild.
    + rewrite (get_stats_build_ok _ _ _ _ _ _ _ _ _ _ _ _ _ _ _ Hbuild) in Hrun.
      destruct (_fetch_contributions _ _ _ _ w0) as [[c|e|] w1] eqn:Hcontribs;
        try discriminate.
      destruct (fetch_repos _ _ _ _ _ _ _ _ _ _ _ w1)
        as [[prs|e|] w2'] eqn:Hrepos;
        try discriminate.
      injection Hrun as -> -> ->.
      exists start_dt, end_dt, w1.
      split; [reflexivity|]. split; [exact Hcontribs|].
      apply fetch_repos_inv in Hrepos
        as [(Hnil & -> & ->) | (su & eu & results & Hs & He & Heach & ->)].
      * now left.
      * right. now exists su, eu, results.
    + rewrite (get_stats_build_raise _ _ _ _ _ _ _ _ _ _ _ _ _ _ Hbuild)
        in Hrun.
      discriminate.
    + unfold get_stats, mbind, lift in Hrun. rewrite Hbuild in Hrun.
      discriminate.
Qed.

Lemma get_stats_orchestration_witness :
  _build_bookend_times (mkdatetime 2023 9 1 12 23 0 0) None None None
  = Ok (day_start, day_end)
  /\ datetime_add day_start (UTC_OFFSET 14400 18000 1)
     = Ok (mkdatetime 2023 9 1 4 0 0 0)
  /\ datetime_add day_end (UTC_OFFSET 14400 18000 1)
     = Ok (mkdatetime 2023 9 2 3 59 59 0)
  /\ get_stats scripted_post fromisoformat_seconds elements_order
       14400 18000 1 5 (mkdatetime 2023 9 1 12 23 0 0) "preocts"
       None None None
       ([ContribResponse contribs_once; PullsResponse page_of_the_day;
         PullsResponse page_empty], [])
     = (Ok (mkContributions 5 1 2 0 {[ mkRepo "Preocts" "daystats" ]},
            concat [[sample_record "2023-09-01T04:51:04Z" 5]]),
        ([], [ContribQuery "preocts" "2023-09-01T00:00:00Z"
                "2023-09-01T23:59:59Z";
              PullRequestQuery "Preocts" "daystats" None;
              PullRequestQuery "Preocts" "daystats" (Some "Y3Vyc29yOjE=")])).
Proof.
  split; [reflexivity|]. split; [reflexivity|]. split; [reflexivity|].
  destruct (get_stats_orchestration scripted_post fromisoformat_seconds
              elements_order 14400 18000 1 5 (mkdatetime 2023 9 1 12 23 0 0)
              "preocts" None None None
              ([ContribResponse contribs_once; PullsResponse page_of_the_day;
                PullsResponse page_empty], [])) as [Hcompose _].
  eapply (Hcompose day_start day_end (mkdatetime 2023 9 1 4 0 0 0)
            (mkdatetime 2023 9 2 3 59 59 0)
            (mkContributions 5 1 2 0 {[ mkRepo "Preocts" "daystats" ]})
            [[sample_record "2023-09-01T04:51:04Z" 5]]
            ([PullsResponse page_of_the_day; PullsResponse page_empty],
             [ContribQuery "preocts" "2023-09-01T00:00:00Z"
                "2023-09-01T23:59:59Z"])).
  - reflexivity.
  - vm_compute. reflexivity.
  - reflexivity.
  - reflexivity.
  - replace (elements_order
               (pr_repos
                  (mkContributions 5 1 2 0 {[ mkRepo "Preocts" "daystats" ]})))
      with [mkRepo "Preocts" "daystats"] by (vm_compute; reflexivity).
    econstructor; [vm_compute; reflexivity | constructor].
Defined.
